(** * map_assignement: the measurement API (server/server.js) and the
      drawing client (the Angular component with [finishDrawing]).

    The server is an Express application over one Mongoose collection; the
    client converts drawn OpenLayers geometries to measurement payloads and
    posts them.  Both are embedded shallowly: JSON documents as an inductive
    type, the collection as a list in natural (insertion) order, every route
    handler as a function from the database state to a new state and a
    response, and the Express application as the ordered list of its layers. *)

From Stdlib Require Import List String Ascii Bool ZArith QArith Lia Permutation Sorted.
From Stdlib Require Import DecimalString Qabs.
Import ListNotations.
Open Scope string_scope.
Set Warnings "-register-all".
Open Scope Z_scope.

(** ** JSON values, as [express.json()] hands them to the handlers *)

(** A JavaScript number is modelled by a rational: [JNum n] is the double
    that [JSON.parse] made of a number literal, and the handlers only test
    its type and its truthiness and pass it on.  Every finite double is a
    rational.  [JSON.parse] takes a literal of magnitude [double_limit] or
    more to the infinity of its sign; a rational that large stands for
    that infinity.  An infinity is a number to [typeof] and truthy like
    any other, so it passes the guard, but [res.json] prints it as [null]:
    the statements about the value that comes back in the answer are made
    for the numbers [finite_number] holds of. *)
Definition number := Q.



Inductive json : Type :=
| JNull
| JBool (b : bool)
| JNum (n : number)
| JStr (s : string)
| JArr (items : list json)
| JObj (fields : list (string * json)).

(** Property lookup on an association list: [None] is [undefined]. *)
Fixpoint assoc (k : string) (fs : list (string * json)) : option json :=
  match fs with
  | [] => None
  | (k', v) :: r => if String.eqb k k' then Some v else assoc k r
  end.

(** [obj.k] for a parsed body (an array or a primitive has none of the four
    properties the handler reads). *)
Definition prop (k : string) (j : json) : option json :=
  match j with
  | JObj fs => assoc k fs
  | _ => None
  end.

Definition is_zero (n : number) : bool := Qeq_bool n 0.

(** JavaScript truthiness, the meaning of [!x] in the handler's guard. *)
Definition truthy (v : option json) : bool :=
  match v with
  | None => false
  | Some JNull => false
  | Some (JBool b) => b
  | Some (JNum n) => negb (is_zero n)
  | Some (JStr s) => negb (String.eqb s "")
  | Some (JArr _) => true
  | Some (JObj _) => true
  end.


(** [typeof v === "number"]. *)
Definition is_number (v : option json) : bool :=
  match v with
  | Some (JNum _) => true
  | _ => false
  end.

(** ** Requests and responses *)

Inductive Method : Type := GET | HEAD | POST | PUT | PATCH | DELETE | OPTIONS.

Definition Method_eqb (a b : Method) : bool :=
  match a, b with
  | GET, GET | HEAD, HEAD | POST, POST | PUT, PUT
  | PATCH, PATCH | DELETE, DELETE | OPTIONS, OPTIONS => true
  | _, _ => false
  end.

(** The request body as [express.json()] sees it: a document it parsed;
    one it cannot parse (a syntax error, a top-level value that is neither
    an object nor an array); or nothing it parses (no body, or a body that
    is not declared as JSON), which leaves [req.body] undefined. *)
Inductive Payload : Type :=
| Parsed (doc : json)
| Malformed
| NoBody.

Record Request : Type := mkRequest {
  method : Method;
  path : string;
  payload : Payload
}.

(** A persisted measurement: the schema's four paths, the [_id] and the two
    dates of [timestamps: true]. *)
Record Doc : Type := mkDoc {
  _id : nat;
  type_ : string;
  geojson : json;
  value : number;
  unit_ : string;
  createdAt : Z;
  updatedAt : Z
}.

Inductive Body : Type :=
| BJson (j : json)
| BText (s : string)
| BDoc (d : Doc)
| BDocs (ds : list Doc)
| BEmpty
| BErrorPage.

(** [Reply] is a response that is sent.  [Uncaught] is what an async
    handler of server.js ends in when its promise rejects: the handler
    sends nothing, and Express answers in its place ([express_error]). *)
Inductive Response : Type :=
| Reply (status : nat) (body : Body)
| Uncaught (err : string).

Definition status_of (r : Response) : option nat :=
  match r with
  | Reply s _ => Some s
  | Uncaught _ => None
  end.

(** ** The store *)

(** [fault = Some msg]: every store operation rejects with message [msg]
    (the connection is down).  [collection] is in natural order, oldest
    insertion first. *)
Record Db : Type := mkDb {
  fault : option string;
  collection : list Doc;
  next_id : nat
}.

Definition set_collection (db : Db) (c : list Doc) : Db :=
  mkDb (fault db) c (next_id db).

(** [sort({ createdAt: -1 })]: descending.  [createdAt] is the only sort
    key, and MongoDB promises no order among documents with equal keys; its
    sort keeps them in the order of the collection scan, the natural order,
    which is what [insert_desc] does: a document goes before the first one
    that is not newer than it. *)
Fixpoint insert_desc (d : Doc) (l : list Doc) : list Doc :=
  match l with
  | [] => [d]
  | x :: r =>
      if createdAt d <? createdAt x then x :: insert_desc d r
      else d :: x :: r
  end.

Definition sort_desc (l : list Doc) : list Doc := fold_right insert_desc [] l.

(** [Measurement.find().sort({ createdAt: -1 })]. *)
Definition find_sorted (db : Db) : string + list Doc :=
  match fault db with
  | Some e => inl e
  | None => inr (sort_desc (collection db))
  end.

(** [Measurement.findOne().sort({ createdAt: -1 })]: [null] on an empty
    collection. *)
Definition findOne_sorted (db : Db) : string + option Doc :=
  match fault db with
  | Some e => inl e
  | None => inr (hd_error (sort_desc (collection db)))
  end.

Fixpoint remove_id (i : nat) (l : list Doc) : list Doc :=
  match l with
  | [] => []
  | x :: r => if Nat.eqb (_id x) i then r else x :: remove_id i r
  end.

(** [Measurement.findByIdAndDelete(id)]: removes the document with that
    [_id], if there is one. *)
Definition findByIdAndDelete (i : nat) (db : Db) : string + Db :=
  match fault db with
  | Some e => inl e
  | None => inr (set_collection db (remove_id i (collection db)))
  end.


(** ** Route matching

    Express matches a route path case-insensitively and lets one trailing
    slash pass (its defaults: no [case sensitive routing], no [strict
    routing]); [path] is the URL's pathname, the query string left out. *)

Definition lower_ascii (c : ascii) : ascii :=
  let n := nat_of_ascii c in
  if ((65 <=? n) && (n <=? 90))%nat then ascii_of_nat (n + 32) else c.

Fixpoint lower (s : string) : string :=
  match s with
  | EmptyString => EmptyString
  | String c r => String (lower_ascii c) (lower r)
  end.

Fixpoint strip_slash (s : string) : string :=
  match s with
  | EmptyString => EmptyString
  | String c r =>
      if Ascii.eqb c "/" && String.eqb r "" then EmptyString
      else String c (strip_slash r)
  end.

Definition path_matches (pat p : string) : bool :=
  let base := strip_slash (lower pat) in
  let q := lower p in
  String.eqb q base || String.eqb q (base ++ "/").

(** A route registered with [app.get] also answers HEAD. *)
Definition method_matches (route req : Method) : bool :=
  Method_eqb route req ||
  match route, req with
  | GET, HEAD => true
  | _, _ => false
  end.

(** The routes server.js defines, in the order it registers them. *)
Definition defined_routes : list (Method * string) :=
  [ (GET, "/api/health");
    (GET, "/");
    (GET, "/api/measurements");
    (POST, "/api/measurements");
    (DELETE, "/api/measurements/latest") ].

Definition matches_route (req : Request) : bool :=
  existsb (fun r => method_matches (fst r) (method req) && path_matches (snd r) (path req))
          defined_routes.

(** ** server.js *)

Section Server.

(** [String(n)] for a number: JavaScript's number printing is not part of
    the repository, so it is a parameter of the server. *)
Variable Number_toString : number -> string.

(** *** MeasurementSchema (server.js, lines 35-45) *)

(** What Mongoose does to a value assigned to a [String] path: a string
    stays, a number or boolean is printed, a document stands for its string
    [_id], and an array or a plain object cannot be cast ([None]). *)
Definition castString (v : json) : option string :=
  match v with
  | JStr s => Some s
  | JNum n => Some (Number_toString n)
  | JBool b => Some (if b then "true" else "false")
  | JObj fs =>
      match assoc "_id" fs with
      | Some (JStr s) => if String.eqb s "" then None else Some s
      | _ => None
      end
  | JArr _ => None
  | JNull => None
  end.

(** A [Number] path: the handler's guard lets only numbers arrive here. *)
Definition castNumber (v : json) : option number :=
  match v with
  | JNum n => Some n
  | _ => None
  end.

Definition type_enum : list string := ["LineString"; "Polygon"].

Definition in_enum (s : string) : bool := existsb (String.eqb s) type_enum.

(** [type: { type: String, enum: [...], required: true }]. *)
Definition validate_type (v : option json) : option string :=
  match v with
  | Some j =>
      match castString j with
      | Some s => if negb (String.eqb s "") && in_enum s then Some s else None
      | None => None
      end
  | None => None
  end.

(** [geojson: { type: Object, required: true }]: any value but [null] or
    [undefined], kept as it is.  (The schema option [minimize], on by
    default, makes Mongoose leave empty objects out of what it stores and
    returns; this is not modelled, and the statements about the stored
    geojson are made for documents with [no_empty_object].) *)
Definition validate_geojson (v : option json) : option json :=
  match v with
  | Some JNull => None
  | Some j => Some j
  | None => None
  end.

(** [value: { type: Number, required: true }]. *)
Definition validate_value (v : option json) : option number :=
  match v with
  | Some j => castNumber j
  | None => None
  end.

(** [unit: { type: String, required: true }]. *)
Definition validate_unit (v : option json) : option string :=
  match v with
  | Some j =>
      match castString j with
      | Some s => if String.eqb s "" then None else Some s
      | None => None
      end
  | None => None
  end.

Record Fields : Type := mkFields {
  f_type : string;
  f_geojson : json;
  f_value : number;
  f_unit : string
}.

Definition validate (ty g v u : option json) : option Fields :=
  match validate_type ty, validate_geojson g, validate_value v, validate_unit u with
  | Some t, Some gj, Some n, Some un => Some (mkFields t gj n un)
  | _, _, _, _ => None
  end.

(** [Measurement.create({ type, geojson, value, unit })] at time [now]:
    validation first, then the insert, which appends to the collection with
    a fresh [_id] and both dates set to [now]. *)
Definition create (now : Z) (ty g v u : option json) (db : Db) : string + (Db * Doc) :=
  match validate ty g v u with
  | None => inl "Measurement validation failed"
  | Some f =>
      match fault db with
      | Some e => inl e
      | None =>
          let d := mkDoc (next_id db) (f_type f) (f_geojson f) (f_value f) (f_unit f) now now in
          inr (mkDb None (collection db ++ [d]) (S (next_id db)), d)
      end
  end.

(** *** The handlers *)

Definition Handler : Type := Z -> Db -> Request -> Db * Response.

Definition error_body (msg : string) : Body := BJson (JObj [("error", JStr msg)]).

(** [req.body] when it is defined.  ([express.json()] has answered a
    [Malformed] payload before a handler registered after it runs, and the
    only handler that reads the body throws on [NoBody].) *)
Definition req_body (req : Request) : json :=
  match payload req with
  | Parsed j => j
  | Malformed => JObj []
  | NoBody => JObj []
  end.

(** lines 10-13 *)
Definition health : Handler :=
  fun _ db _ => (db, Reply 200 (BJson (JObj [("ok", JBool true)]))).

(** lines 48-50 *)
Definition root : Handler :=
  fun _ db _ => (db, Reply 200 (BText "API is running. Try /api/health or /api/measurements")).

(** lines 53-61 *)
Definition get_measurements : Handler :=
  fun _ db _ =>
    match find_sorted db with
    | inr items => (db, Reply 200 (BDocs items))
    | inl msg =>
        (db, Reply 503 (BJson (JObj [("error", JStr "Database unavailable");
                                     ("details", JStr msg)])))
    end.

(** The guard of line 67. *)
Definition invalid_payload (ty g v u : option json) : bool :=
  negb (truthy ty) || negb (truthy g) || negb (is_number v) || negb (truthy u).

(** lines 64-73.  With [req.body] undefined the destructuring of line 65
    throws. *)
Definition post_measurement : Handler :=
  fun now db req =>
    match payload req with
    | NoBody => (db, Uncaught "TypeError: req.body is undefined")
    | _ =>
        let body := req_body req in
        let ty := prop "type" body in
        let g := prop "geojson" body in
        let v := prop "value" body in
        let u := prop "unit" body in
        if invalid_payload ty g v u then (db, Reply 400 (error_body "Invalid payload"))
        else
          match create now ty g v u db with
          | inr (db', saved) => (db', Reply 201 (BDoc saved))
          | inl e => (db, Uncaught e)
          end
    end.

(** lines 76-83 *)
Definition delete_latest : Handler :=
  fun _ db _ =>
    match findOne_sorted db with
    | inl e => (db, Uncaught e)
    | inr None => (db, Reply 404 (error_body "No measurements to delete"))
    | inr (Some latest) =>
        match findByIdAndDelete (_id latest) db with
        | inl e => (db, Uncaught e)
        | inr db' => (db', Reply 200 (BJson (JObj [("deletedCount", JNum 1%Q)])))
        end
    end.

(** *** The application: its layers in registration order *)

(** A layer answers ([Some]) or calls [next()] ([None]). *)
Definition Layer : Type := Z -> Db -> Request -> option (Db * Response).

(** What Express makes of a handler that throws or whose promise rejects:
    the error goes to the error handler, and as server.js registers none,
    the default one answers 500 with an error page.  (This is Express 5;
    the sources pin no version.  Express 4 does not await the handler.) *)
Definition express_error (out : Db * Response) : Db * Response :=
  match out with
  | (db, Uncaught _) => (db, Reply 500 BErrorPage)
  | (db, Reply s b) => (db, Reply s b)
  end.

Definition route (m : Method) (pat : string) (h : Handler) : Layer :=
  fun now db req =>
    if method_matches m (method req) && path_matches pat (path req)
    then Some (express_error (h now db req)) else None.

(** [cors()] with its defaults ends a preflight (OPTIONS) request with 204
    and lets every other request through with a header added. *)
Definition cors : Layer :=
  fun _ db req =>
    match method req with
    | OPTIONS => Some (db, Reply 204 BEmpty)
    | _ => None
    end.

(** [express.json()]: a body it cannot parse ends in Express's error
    handler with the parser's status 400. *)
Definition express_json : Layer :=
  fun _ db req =>
    match payload req with
    | Malformed => Some (db, Reply 400 BErrorPage)
    | Parsed _ => None
    | NoBody => None
    end.

(** lines 20-23: writes a line to the console and calls [next()]. *)
Definition logger : Layer := fun _ _ _ => None.

(** lines 86-88 *)
Definition not_found : Layer :=
  fun _ db _ => Some (db, Reply 404 (error_body "Not found")).

Definition app : list Layer :=
  [ route GET "/api/health" health;
    cors;
    express_json;
    logger;
    route GET "/" root;
    route GET "/api/measurements" get_measurements;
    route POST "/api/measurements" post_measurement;
    route DELETE "/api/measurements/latest" delete_latest;
    not_found ].

(** Express runs the layers in order until one answers; with none left it
    sends its own 404 page. *)
Fixpoint dispatch (layers : list Layer) (now : Z) (db : Db) (req : Request) : Db * Response :=
  match layers with
  | [] => (db, Reply 404 BErrorPage)
  | l :: rest =>
      match l now db req with
      | Some out => out
      | None => dispatch rest now db req
      end
  end.

Definition serve : Handler := dispatch app.

End Server.

(** ** The drawing client (the component's [finishDrawing]) *)

Definition coord : Type := list number.

Inductive Projection : Type := EPSG3857 | EPSG4326.

(** The OpenLayers geometries other than the two the client measures. *)
Inductive OtherKind : Type :=
| Point | LinearRing | MultiPoint | MultiLineString | MultiPolygon
| GeometryCollection | Circle.

Inductive Geometry : Type :=
| LineString (coordinates : list coord)
| Polygon (rings : list (list coord))
| Other (kind : OtherKind).

(** [geom.getType()]. *)
Definition getType (g : Geometry) : string :=
  match g with
  | LineString _ => "LineString"
  | Polygon _ => "Polygon"
  | Other Point => "Point"
  | Other LinearRing => "LinearRing"
  | Other MultiPoint => "MultiPoint"
  | Other MultiLineString => "MultiLineString"
  | Other MultiPolygon => "MultiPolygon"
  | Other GeometryCollection => "GeometryCollection"
  | Other Circle => "Circle"
  end.

Record Feature : Type := mkFeature {
  ol_uid : nat;
  getGeometry : option Geometry
}.

(** The body of one create call: [{ type, geojson, value, unit }]. *)
Record Measurement : Type := mkMeasurement {
  m_type : string;
  m_geojson : json;
  m_value : number;
  m_unit : string
}.

Definition coord_json (c : coord) : json := JArr (map JNum c).

Definition coords_json (cs : list coord) : json := JArr (map coord_json cs).

(** [(clone as LineString).getCoordinates()]. *)
Definition line_getCoordinates (g : Geometry) : list coord :=
  match g with
  | LineString cs => cs
  | _ => []
  end.

(** [(clone as Polygon).getCoordinates()]. *)
Definition polygon_getCoordinates (g : Geometry) : list (list coord) :=
  match g with
  | Polygon rs => rs
  | _ => []
  end.

(** What [JSON.stringify] makes of [[coords]] when [coords] is the first
    ring, [undefined] for a polygon without rings. *)
Definition ring_json (r : option (list coord)) : json :=
  match r with
  | Some cs => coords_json cs
  | None => JNull
  end.

Definition feature_json (gType : string) (coordinates : json) : json :=
  JObj [("type", JStr "Feature");
        ("geometry", JObj [("type", JStr gType); ("coordinates", coordinates)])].

(** The JSON document [http.post] sends for a measurement. *)
Definition measurement_json (m : Measurement) : json :=
  JObj [("type", JStr (m_type m)); ("geojson", m_geojson m);
        ("value", JNum (m_value m)); ("unit", JStr (m_unit m))].

Section GeometryService.

(** OpenLayers is not part of the repository: the point transform between
    two projections and the two functions of [ol/sphere] are parameters. *)
Variable transformCoord : Projection -> Projection -> coord -> coord.
Variable getLength : Geometry -> Projection -> number.
Variable getArea : Geometry -> Projection -> number.

(** [geom.transform(source, destination)]: every coordinate is
    transformed, the kind of geometry stays. *)
Definition transform (src dst : Projection) (g : Geometry) : Geometry :=
  match g with
  | LineString cs => LineString (map (transformCoord src dst) cs)
  | Polygon rs => Polygon (map (map (transformCoord src dst)) rs)
  | Other k => Other k
  end.

(** One turn of the loop of lines 121-146: [None] is [continue]. *)
Definition to_measurement (feature : Feature) : option Measurement :=
  match getGeometry feature with
  | None => None
  | Some geom =>
      let gType := getType geom in
      let clone := transform EPSG3857 EPSG4326 geom in
      if String.eqb gType "LineString" then
        let coords := line_getCoordinates clone in
        Some (mkMeasurement gType (feature_json gType (coords_json coords))
                            (getLength clone EPSG4326) "m")
      else if String.eqb gType "Polygon" then
        let coords := nth_error (polygon_getCoordinates clone) 0 in
        Some (mkMeasurement gType (feature_json gType (JArr [ring_json coords]))
                            (getArea clone EPSG4326) "m²")
      else None
  end.

Fixpoint build_payloads (features : list Feature) : list Measurement :=
  match features with
  | [] => []
  | f :: rest =>
      match to_measurement f with
      | Some m => m :: build_payloads rest
      | None => build_payloads rest
      end
  end.

(** *** The component's state and the callbacks of one batch *)

Record App : Type := mkApp {
  savedSource : list Feature;
  pendingSource : list Feature;
  lastInfo : string
}.

(** The variables the callbacks of one [finishDrawing] close over. *)
Record Batch : Type := mkBatch {
  features : list Feature;
  total : nat;
  done : nat;
  failed : bool
}.

Definition msg_nothing_drawn : string :=
  "Nothing to save. Draw a line or polygon first, then click Finish.".
Definition msg_nothing : string := "Nothing to save.".
Definition msg_saved : string := "✅Your data are saved and are available.".
Definition msg_failed : string := "❌Failed to save. Is the server running?".

(** How one create call ends: its [next] or its [error] callback runs. *)
Inductive Outcome : Type := Next | Error.

(** lines 158-167 *)
Definition on_next (s : App * Batch) : App * Batch :=
  let (a, b) := s in
  let done' := S (done b) in
  let b' := mkBatch (features b) (total b) done' (failed b) in
  if negb (failed b) && Nat.eqb done' (total b) then
    (mkApp (savedSource a ++ features b) [] msg_saved, b')
  else (a, b').

(** lines 169-175 *)
Definition on_error (s : App * Batch) : App * Batch :=
  let (a, b) := s in
  (mkApp (savedSource a) (pendingSource a) msg_failed,
   mkBatch (features b) (total b) (done b) true).

Definition callback (s : App * Batch) (o : Outcome) : App * Batch :=
  match o with
  | Next => on_next s
  | Error => on_error s
  end.

(** The synchronous part of [finishDrawing] (lines 111-155): the state it
    leaves, the bodies it posts and the batch its callbacks share; no batch
    when it returns early.  ([stopDrawing] only removes the map's draw
    interaction, which is not part of [App].) *)
Definition finishDrawing_begin (a : App) : App * list Measurement * option Batch :=
  let features := pendingSource a in
  if Nat.eqb (List.length features) 0 then
    (mkApp (savedSource a) (pendingSource a) msg_nothing_drawn, [], None)
  else
    let payloads := build_payloads features in
    let total := List.length payloads in
    if Nat.eqb total 0 then
      (mkApp (savedSource a) (pendingSource a) msg_nothing, [], None)
    else (a, payloads, Some (mkBatch features total 0 false)).

(** [finishDrawing] to the end: call [i] (in the order of the payloads)
    ends as [nth i outcomes], and the calls complete in the order [arrival]
    lists them. *)
Definition finishDrawing (a : App) (outcomes : list Outcome) (arrival : list nat) : App :=
  match finishDrawing_begin a with
  | (a', _, None) => a'
  | (a', _, Some b) =>
      fst (fold_left callback (map (fun i => nth i outcomes Next) arrival) (a', b))
  end.

End GeometryService.

(** ** Vocabulary of the statements *)

(** [newer_first x y]: [x] may stand before [y] in a listing. *)
Definition newer_first (x y : Doc) : Prop := createdAt y <= createdAt x.

(** The requests of the three measurement routes. *)
Definition POST_measurements (body : json) : Request :=
  mkRequest POST "/api/measurements" (Parsed body).

Definition GET_measurements (body : json) : Request :=
  mkRequest GET "/api/measurements" (Parsed body).

Definition DELETE_latest (body : json) : Request :=
  mkRequest DELETE "/api/measurements/latest" (Parsed body).

(** The values JavaScript's [!] takes to [true]: [undefined], [null],
    [false], 0 and the empty string. *)
Definition js_falsy (v : option json) : Prop :=
  match v with
  | None => True
  | Some JNull => True
  | Some (JBool b) => b = false
  | Some (JNum n) => (n == 0)%Q
  | Some (JStr s) => s = ""
  | Some (JArr _) => False
  | Some (JObj _) => False
  end.

(** The stored values are all non-negative. *)
Definition nonneg_values (db : Db) : Prop :=
  Forall (fun d => (0 <= value d)%Q) (collection db).

(** Unique [_id]s, all below the next one to be assigned. *)
Definition wf_db (db : Db) : Prop :=
  NoDup (map _id (collection db)) /\
  Forall (fun d => (_id d < next_id db)%nat) (collection db).

(** ** Sample data for the closed instances *)

(** A stand-in for JavaScript's number printing; no sample below has a
    number where the schema wants a string, so it is never called. *)
Definition sample_toString : number -> string := fun _ => "0".

Definition db_empty : Db := mkDb None [] 0.

(** The body [{}]. *)
Definition body_empty_object : json := JObj [].

(** A line of 2.5 m and a polygon of 7 m², as the client would post them. *)
Definition body_line : json :=
  JObj [("type", JStr "LineString");
        ("geojson", JObj [("type", JStr "Feature");
                          ("geometry", JObj [("type", JStr "LineString");
                                             ("coordinates", JArr [JArr [JNum 0%Q; JNum 0%Q];
                                                                   JArr [JNum 1%Q; JNum 0%Q]])])]);
        ("value", JNum (5 # 2)%Q);
        ("unit", JStr "m")].

Definition body_polygon : json :=
  JObj [("type", JStr "Polygon");
        ("geojson", JObj [("type", JStr "Feature")]);
        ("value", JNum 7%Q);
        ("unit", JStr "m²")].

(** All four fields present and well-typed, but a [type] outside the
    schema's enum. *)
Definition body_circle : json :=
  JObj [("type", JStr "Circle");
        ("geojson", JObj [("type", JStr "Feature")]);
        ("value", JNum 1%Q);
        ("unit", JStr "m")].

(** A negative length. *)
Definition body_negative : json :=
  JObj [("type", JStr "LineString");
        ("geojson", JObj [("type", JStr "Feature")]);
        ("value", JNum (-5)%Q);
        ("unit", JStr "m")].

(** A zero length. *)
Definition body_zero : json :=
  JObj [("type", JStr "LineString");
        ("geojson", JObj [("type", JStr "Feature")]);
        ("value", JNum 0%Q);
        ("unit", JStr "m")].

(** [type], respectively [unit], present but the empty string. *)
Definition body_empty_type : json :=
  JObj [("type", JStr "");
        ("geojson", JObj [("type", JStr "Feature")]);
        ("value", JNum 3%Q);
        ("unit", JStr "m")].

Definition body_empty_unit : json :=
  JObj [("type", JStr "LineString");
        ("geojson", JObj [("type", JStr "Feature")]);
        ("value", JNum 3%Q);
        ("unit", JStr "")].

(** No [type]; a [null] geojson; a [unit] that is 0; a [value] that is
    the string "5". *)
Definition body_no_type : json :=
  JObj [("geojson", JObj [("type", JStr "Feature")]);
        ("value", JNum 3%Q);
        ("unit", JStr "m")].

Definition body_null_geojson : json :=
  JObj [("type", JStr "LineString");
        ("geojson", JNull);
        ("value", JNum 3%Q);
        ("unit", JStr "m")].

Definition body_zero_unit : json :=
  JObj [("type", JStr "LineString");
        ("geojson", JObj [("type", JStr "Feature")]);
        ("value", JNum 3%Q);
        ("unit", JNum 0%Q)].

Definition body_string_value : json :=
  JObj [("type", JStr "LineString");
        ("geojson", JObj [("type", JStr "Feature")]);
        ("value", JStr "5");
        ("unit", JStr "m")].

(** The records the server makes of [body_line] and [body_polygon] when
    both arrive at time 1000 on the empty store, in this order. *)
Definition doc_line : Doc :=
  mkDoc 0 "LineString"
        (JObj [("type", JStr "Feature");
               ("geometry", JObj [("type", JStr "LineString");
                                  ("coordinates", JArr [JArr [JNum 0%Q; JNum 0%Q];
                                                        JArr [JNum 1%Q; JNum 0%Q]])])])
        (5 # 2)%Q "m" 1000 1000.

Definition doc_polygon : Doc :=
  mkDoc 1 "Polygon" (JObj [("type", JStr "Feature")]) 7%Q "m²" 1000 1000.

(** The record of [body_polygon] when it arrives one millisecond later. *)
Definition doc_polygon_later : Doc :=
  mkDoc 1 "Polygon" (JObj [("type", JStr "Feature")]) 7%Q "m²" 1001 1001.

(** How many of the calls, in a list of outcomes, succeeded. *)
Fixpoint count_next (os : list Outcome) : nat :=
  match os with
  | [] => 0
  | Next :: r => S (count_next r)
  | Error :: r => count_next r
  end.

(** Sample OpenLayers functions and three drawn lines. *)
Definition sample_transformCoord : Projection -> Projection -> coord -> coord :=
  fun _ _ c => c.
Definition sample_getLength : Geometry -> Projection -> number := fun _ _ => 1%Q.
Definition sample_getArea : Geometry -> Projection -> number := fun _ _ => 2%Q.

Definition sample_line (i : nat) : Feature :=
  mkFeature i (Some (LineString [[0%Q; 0%Q]; [1%Q; 0%Q]])).

Definition sample_polygon (i : nat) : Feature :=
  mkFeature i (Some (Polygon [[[0%Q; 0%Q]; [1%Q; 0%Q]; [1%Q; 1%Q]; [0%Q; 0%Q]]])).

(** The measurement of [sample_line] under the sample functions. *)
Definition sample_line_measurement : Measurement :=
  mkMeasurement "LineString"
    (feature_json "LineString" (coords_json [[0%Q; 0%Q]; [1%Q; 0%Q]])) 1%Q "m".

Definition app_three_pending : App :=
  mkApp [] [sample_line 1; sample_polygon 2; sample_line 3] "Loading…".

(** ** The rest of the component: loading, clearing, downloading *)

(** Angular's [HttpClient] hands a response with a 2xx status to [next]
    and one with any other status to [error].  ([Uncaught] is no response:
    it never comes out of [serve].) *)
Inductive HttpEvent : Type :=
| HttpNext (body : Body)
| HttpError (status : nat).

Definition http_event (r : Response) : option HttpEvent :=
  match r with
  | Reply s b => Some (if ((200 <=? s) && (s <? 300))%nat then HttpNext b else HttpError s)
  | Uncaught _ => None
  end.

(** The requests the component sends; none of them has a body. *)
Definition GET_list : Request := mkRequest GET "/api/measurements" NoBody.
Definition DELETE_all : Request := mkRequest DELETE "/api/measurements" NoBody.
Definition DELETE_last : Request := mkRequest DELETE "/api/measurements/latest" NoBody.

(** [`${n}`] for an array length. *)
Definition nat_string (n : nat) : string := NilZero.string_of_uint (Nat.to_uint n).

(** *** Coordinates read back from a stored geojson *)

Fixpoint option_all {A : Type} (l : list (option A)) : option (list A) :=
  match l with
  | [] => Some []
  | Some x :: r =>
      match option_all r with
      | Some xs => Some (x :: xs)
      | None => None
      end
  | None :: _ => None
  end.

Definition json_number (j : json) : option number :=
  match j with
  | JNum n => Some n
  | _ => None
  end.

(** A JSON value that is a [number[]], a [number[][]], a [number[][][]]. *)
Definition json_coord (j : json) : option coord :=
  match j with
  | JArr l => option_all (map json_number l)
  | _ => None
  end.

Definition json_coords (j : json) : option (list coord) :=
  match j with
  | JArr l => option_all (map json_coord l)
  | _ => None
  end.

Definition json_rings (j : json) : option (list (list coord)) :=
  match j with
  | JArr l => option_all (map json_coords l)
  | _ => None
  end.

(** The coordinate arrays an OpenLayers geometry keeps as they are given:
    at least one coordinate, and all coordinates of the dimension of the
    first, which is 2, 3 or 4. *)
Definition same_dimension (c : coord) (cs : list coord) : bool :=
  forallb (fun c' => Nat.eqb (List.length c') (List.length c)) cs.

Definition uniform_coords (cs : list coord) : bool :=
  match cs with
  | [] => false
  | c :: _ =>
      ((2 <=? List.length c) && (List.length c <=? 4))%nat && same_dimension c cs
  end.

Definition uniform_rings (rs : list (list coord)) : bool :=
  match rs with
  | (c :: _) :: _ =>
      ((2 <=? List.length c) && (List.length c <=? 4))%nat &&
      forallb (fun r => negb (Nat.eqb (List.length r) 0) && same_dimension c r) rs
  | _ => false
  end.

(** [typeof x[0] === 'number'] for an element [x] of a JSON array; [None]
    when [x] is [null] and the indexing throws. *)
Definition first_is_number (x : json) : option bool :=
  match x with
  | JNull => None
  | JArr l => Some (is_number (hd_error l))
  | JObj fs => Some (is_number (assoc "0" fs))
  | _ => Some false
  end.

(** What one turn of the [forEach] of [loadMeasurements] does with a
    record: it adds a geometry, or returns without adding one, or leaves
    what this model covers (the indexing throws, or a value that is not the
    [number[][]] or [number[][][]] it is cast to goes to OpenLayers). *)
Inductive LoadStep : Type :=
| Added (g : Geometry)
| Skipped
| Unmodelled.

Definition loads (s : LoadStep) : bool :=
  match s with
  | Unmodelled => false
  | _ => true
  end.

Definition is_string (v : option json) (s : string) : bool :=
  match v with
  | Some (JStr s') => String.eqb s' s
  | _ => false
  end.

Definition is_array (v : option json) : bool :=
  match v with
  | Some (JArr _) => true
  | _ => false
  end.

Definition download_name (iso : string) : string :=
  "measurements_" ++ substring 0 10 iso ++ ".json".

(** The file [downloadData] hands to the browser. *)
Record Download : Type := mkDownload {
  file_name : string;
  file_items : list Doc
}.

Section Component.

Variable Number_toString : number -> string.
Variable transformCoord : Projection -> Projection -> coord -> coord.

(** Lines 57-67 of the component, for one record [m]. *)
Definition load_item (m : Doc) : LoadStep :=
  let geom :=
    match geojson m with
    | JNull => None
    | g => prop "geometry" g
    end in
  match geom with
  | None => Skipped
  | Some gv =>
      let coordinates := prop "coordinates" gv in
      if negb (truthy geom) || negb (truthy coordinates) then Skipped
      else if is_string (prop "type" gv) "LineString" then
        match coordinates with
        | Some (JArr (x :: rest)) =>
            match first_is_number x with
            | None => Unmodelled
            | Some false => Skipped
            | Some true =>
                match json_coords (JArr (x :: rest)) with
                | Some cs =>
                    if uniform_coords cs
                    then Added (transform transformCoord EPSG4326 EPSG3857 (LineString cs))
                    else Unmodelled
                | None => Unmodelled
                end
            end
        | _ => Skipped
        end
      else if is_string (prop "type" gv) "Polygon" && is_array coordinates then
        match coordinates with
        | Some j =>
            match json_rings j with
            | Some rs =>
                if uniform_rings rs
                then Added (transform transformCoord EPSG4326 EPSG3857 (Polygon rs))
                else Unmodelled
            | None => Unmodelled
            end
        | None => Skipped
        end
      else Skipped
  end.

(** The [forEach]: every geometry added becomes a new feature of the saved
    source.  [uid] stands for OpenLayers's uid counter: new features get
    ids not used before, in the order they are made. *)
Fixpoint load_items (items : list Doc) (uid : nat) (saved : list Feature)
  : option (list Feature) :=
  match items with
  | [] => Some saved
  | m :: rest =>
      match load_item m with
      | Added g => load_items rest (S uid) (saved ++ [mkFeature uid (Some g)])
      | Skipped => load_items rest uid saved
      | Unmodelled => None
      end
  end.

Definition msg_no_measurements : string :=
  "No measurements yet. Draw then click Finish to save.".
Definition msg_load_failed : string :=
  "Could not load measurements. Is the server running?".

(** lines 55-71: the [next] callback of [loadMeasurements]. *)
Definition loadMeasurements_next (items : list Doc) (uid : nat) (a : App) : option App :=
  match load_items items uid (savedSource a) with
  | Some saved =>
      Some (mkApp saved (pendingSource a)
              (if Nat.eqb (List.length items) 0 then msg_no_measurements
               else nat_string (List.length items) ++ " measurement(s) in database."))
  | None => None
  end.

(** lines 72-77 *)
Definition loadMeasurements_error (a : App) : App :=
  mkApp (savedSource a) (pendingSource a) msg_load_failed.

(** [loadMeasurements] against the server. *)
Definition loadMeasurements (now : Z) (db : Db) (uid : nat) (a : App) : option App :=
  match http_event (snd (serve Number_toString now db GET_list)) with
  | Some (HttpNext (BDocs items)) => loadMeasurements_next items uid a
  | Some (HttpNext _) => None
  | Some (HttpError _) => Some (loadMeasurements_error a)
  | None => None
  end.

(** lines 180-190 *)
Definition reset (a : App) : App :=
  mkApp (savedSource a) []
        "Unsaved drawings cleared. Your saved data in the database are unchanged.".

(** [String(v)], as a template literal prints a JSON value. *)
Fixpoint js_String (j : json) : string :=
  match j with
  | JNull => "null"
  | JBool b => if b then "true" else "false"
  | JNum n => Number_toString n
  | JStr s => s
  | JArr items =>
      (fix join (l : list json) : string :=
         match l with
         | [] => ""
         | x :: r =>
             let printed := match x with JNull => "" | _ => js_String x end in
             match r with
             | [] => printed
             | _ :: _ => printed ++ "," ++ join r
             end
         end) items
  | JObj _ => "[object Object]"
  end.

Definition template (v : option json) : string :=
  match v with
  | Some j => js_String j
  | None => "undefined"
  end.

Definition msg_clear_failed : string := "Failed to clear database. Is the server running?".

(** lines 195-200: the [next] callback of [clearDatabase]. *)
Definition clearDatabase_next (res : json) (a : App) : App :=
  mkApp [] (pendingSource a)
        ("Database cleared. " ++ template (prop "deletedCount" res)
                              ++ " measurement(s) removed.").

(** lines 202-207 *)
Definition clearDatabase_error (a : App) : App :=
  mkApp (savedSource a) (pendingSource a) msg_clear_failed.

(** [clearDatabase] (lines 192-209) against the server; [confirmed] is
    the user's answer to the confirmation dialog. *)
Definition clearDatabase (confirmed : bool) (now : Z) (db : Db) (a : App)
  : option (Db * App) :=
  if negb confirmed then Some (db, a)
  else
    let out := serve Number_toString now db DELETE_all in
    match http_event (snd out) with
    | Some (HttpNext (BJson res)) => Some (fst out, clearDatabase_next res a)
    | Some (HttpNext _) => None
    | Some (HttpError _) => Some (fst out, clearDatabase_error a)
    | None => None
    end.

(** lines 214-227: the [next] callback of [downloadData]; [iso] is
    [new Date().toISOString()]. *)
Definition downloadData_next (iso : string) (items : list Doc) (a : App) : App * Download :=
  (mkApp (savedSource a) (pendingSource a)
         (if Nat.eqb (List.length items) 0
          then "No data to download. Draw and click Finish first."
          else "Downloaded " ++ nat_string (List.length items) ++ " measurement(s)."),
   mkDownload (download_name iso) items).

(** lines 228-233 *)
Definition downloadData_error (a : App) : App :=
  mkApp (savedSource a) (pendingSource a) "Download failed. Is the server running?".

(** [downloadData] (lines 212-235) against the server. *)
Definition downloadData (iso : string) (now : Z) (db : Db) (a : App)
  : option (App * option Download) :=
  match http_event (snd (serve Number_toString now db GET_list)) with
  | Some (HttpNext (BDocs items)) =>
      Some (fst (downloadData_next iso items a), Some (snd (downloadData_next iso items a)))
  | Some (HttpNext _) => None
  | Some (HttpError _) => Some (downloadData_error a, None)
  | None => None
  end.

End Component.

(** More sample data: a polygon with a hole, and a date. *)
Definition sample_holed_polygon : Feature :=
  mkFeature 7 (Some (Polygon [[[0%Q; 0%Q]; [4%Q; 0%Q]; [4%Q; 4%Q]; [0%Q; 0%Q]];
                              [[1%Q; 1%Q]; [2%Q; 1%Q]; [2%Q; 2%Q]; [1%Q; 1%Q]]])).

Definition sample_iso : string := "2026-02-03T10:20:30.000Z".

Definition app_fresh : App := mkApp [] [] "Loading…".

(** ** The deployed component

    The second component of the repository (kept in CLEAR_MEASUREMENTS.md,
    lines 61-349) talks to the deployed API.  It counts the saved
    measurements, reloads after deleting the latest one, and refuses to
    download while the count is zero.  Its loop over the pending features
    and over the loaded records is the one above. *)

Module Deployed.

Record App : Type := mkApp {
  savedSource : list Feature;
  pendingSource : list Feature;
  lastInfo : string;
  showInstructions : bool;
  savedMeasurementsCount : nat;
  countAtLastDownload : nat
}.

Definition set_lastInfo (a : App) (msg : string) : App :=
  mkApp (savedSource a) (pendingSource a) msg (showInstructions a)
        (savedMeasurementsCount a) (countAtLastDownload a).

(** lines 108-110 *)
Definition canDownload (a : App) : bool := (0 <? savedMeasurementsCount a)%nat.

(** lines 286-299 *)
Definition reset (a : App) : App :=
  mkApp [] [] "Map refreshed. All lines (saved and unsaved) cleared from the map."
        (showInstructions a) 0 0.

Definition msg_deleted : string := "Last measurement deleted.".
Definition msg_none_to_delete : string := "No measurement to delete.".
Definition msg_delete_failed : string := "Failed to delete. Is the server running?".
Definition msg_download_refused : string :=
  "Draw and click Finish first to save measurements, then you can download.".

(** [res.deletedCount === 1]. *)
Definition deleted_count_is_one (res : json) : bool :=
  match prop "deletedCount" res with
  | Some (JNum n) => Qeq_bool n 1
  | _ => false
  end.

Section Component.

Variable Number_toString : number -> string.
Variable transformCoord : Projection -> Projection -> coord -> coord.
Variable getLength : Geometry -> Projection -> number.
Variable getArea : Geometry -> Projection -> number.

(** line 155: the saved source is cleared before the request is sent. *)
Definition loadMeasurements_begin (a : App) : App :=
  mkApp [] (pendingSource a) (lastInfo a) (showInstructions a)
        (savedMeasurementsCount a) (countAtLastDownload a).

(** lines 157-174 *)
Definition loadMeasurements_next
           (overrideMessage : option string) (items : list Doc) (uid : nat) (a : App)
  : option App :=
  match load_items transformCoord items uid (savedSource a) with
  | Some saved =>
      Some (mkApp saved (pendingSource a)
              (match overrideMessage with
               | Some msg => msg
               | None =>
                   if Nat.eqb (List.length items) 0 then msg_no_measurements
                   else nat_string (List.length items) ++ " measurement(s) in database."
               end)
              (showInstructions a) (List.length items) (countAtLastDownload a))
  | None => None
  end.

(** [loadMeasurements] (lines 154-182) against the server. *)
Definition loadMeasurements
           (overrideMessage : option string) (now : Z) (db : Db) (uid : nat) (a : App)
  : option App :=
  match http_event (snd (serve Number_toString now db GET_list)) with
  | Some (HttpNext (BDocs items)) =>
      loadMeasurements_next overrideMessage items uid (loadMeasurements_begin a)
  | Some (HttpNext _) => None
  | Some (HttpError _) => Some (set_lastInfo (loadMeasurements_begin a) msg_load_failed)
  | None => None
  end.

(** [deleteLastMeasurement] (lines 302-316) against the server: the
    delete at time [now], and the reload it starts at time [later]. *)
Definition deleteLastMeasurement
           (confirmed : bool) (now later : Z) (db : Db) (uid : nat) (a : App)
  : option (Db * App) :=
  if negb confirmed then Some (db, a)
  else
    let out := serve Number_toString now db DELETE_last in
    match http_event (snd out) with
    | Some (HttpNext (BJson res)) =>
        let msg := if deleted_count_is_one res then msg_deleted else msg_none_to_delete in
        match loadMeasurements (Some msg) later (fst out) uid a with
        | Some a' => Some (fst out, a')
        | None => None
        end
    | Some (HttpNext _) => None
    | Some (HttpError status) =>
        Some (fst out,
              set_lastInfo a (if Nat.eqb status 404 then msg_none_to_delete
                              else msg_delete_failed))
    | None => None
    end.

(** [downloadData] (lines 319-348) against the server. *)
Definition downloadData (iso : string) (now : Z) (db : Db) (a : App)
  : option (App * option Download) :=
  if negb (canDownload a) then Some (set_lastInfo a msg_download_refused, None)
  else
    match http_event (snd (serve Number_toString now db GET_list)) with
    | Some (HttpNext (BDocs items)) =>
        Some (mkApp (savedSource a) (pendingSource a)
                    ("Downloaded " ++ nat_string (List.length items) ++ " measurement(s).")
                    (showInstructions a) (savedMeasurementsCount a) (List.length items),
              Some (mkDownload (download_name iso) items))
    | Some (HttpNext _) => None
    | Some (HttpError _) =>
        Some (set_lastInfo a "Download failed. Is the server running?", None)
    | None => None
    end.

(** lines 263-273: the success callback also sets the count. *)
Definition on_next (s : App * Batch) : App * Batch :=
  let (a, b) := s in
  let done' := S (done b) in
  let b' := mkBatch (features b) (total b) done' (failed b) in
  if negb (failed b) && Nat.eqb done' (total b) then
    (mkApp (savedSource a ++ features b) [] msg_saved (showInstructions a)
           (List.length (savedSource a ++ features b)) (countAtLastDownload a), b')
  else (a, b').

(** lines 275-281 *)
Definition on_error (s : App * Batch) : App * Batch :=
  let (a, b) := s in
  (set_lastInfo a msg_failed, mkBatch (features b) (total b) (done b) true).

Definition callback (s : App * Batch) (o : Outcome) : App * Batch :=
  match o with
  | Next => on_next s
  | Error => on_error s
  end.

(** lines 216-260 *)
Definition finishDrawing_begin (a : App) : App * list Measurement * option Batch :=
  let features := pendingSource a in
  if Nat.eqb (List.length features) 0 then (set_lastInfo a msg_nothing_drawn, [], None)
  else
    let payloads := build_payloads transformCoord getLength getArea features in
    let total := List.length payloads in
    if Nat.eqb total 0 then (set_lastInfo a msg_nothing, [], None)
    else (a, payloads, Some (mkBatch features total 0 false)).

Definition finishDrawing (a : App) (outcomes : list Outcome) (arrival : list nat) : App :=
  match finishDrawing_begin a with
  | (a', _, None) => a'
  | (a', _, Some b) =>
      fst (fold_left callback (map (fun i => nth i outcomes Next) arrival) (a', b))
  end.

End Component.

End Deployed.

(** A deployed component that shows two saved features after a load. *)
Definition deployed_loaded : Deployed.App :=
  Deployed.mkApp [sample_line 1; sample_line 2] [sample_line 3] "2 measurement(s) in database."
                 false 2 0.

(** The record the server makes of [sample_line_measurement] at time 1000
    on the empty store. *)
Definition doc_line_posted : Doc :=
  mkDoc 0 "LineString" (feature_json "LineString" (coords_json [[0%Q; 0%Q]; [1%Q; 0%Q]]))
        1%Q "m" 1000 1000.

(** Stores and components for the closed instances below. *)
Definition db_two : Db := mkDb None [doc_line; doc_polygon_later] 2.

Definition db_down : Db := mkDb (Some "connection refused") [doc_line] 1.

Definition app_unmeasurable : App :=
  mkApp [] [mkFeature 9 None; mkFeature 10 (Some (Other Point))] "Loading…".

Definition deployed_pending : Deployed.App :=
  Deployed.mkApp [] [sample_line 1; sample_polygon 2] "Loading…" false 0 0.

(** ** Sequences of requests *)

(** Requests handled one after the other, each at its own time. *)
Fixpoint run (Number_toString : number -> string) (db : Db) (reqs : list (Z * Request))
  : Db * list Response :=
  match reqs with
  | [] => (db, [])
  | (now, req) :: rest =>
      let (db1, r) := serve Number_toString now db req in
      let (db2, rs) := run Number_toString db1 rest in
      (db2, r :: rs)
  end.

Definition is_created (r : Response) : bool :=
  match r with
  | Reply s _ => Nat.eqb s 201
  | Uncaught _ => false
  end.

Definition deleted_one : Response :=
  Reply 200 (BJson (JObj [("deletedCount", JNum 1%Q)])).

(** Every stored record is older than [now]. *)
Definition all_older (now : Z) (db : Db) : Prop :=
  Forall (fun d => createdAt d < now) (collection db).

(** * Properties *)

(** ** The sorted query *)

Lemma insert_desc_perm (d : Doc) (l : list Doc) :
  Permutation (insert_desc d l) (d :: l).
Proof.
  induction l as [|x r IH]; simpl.
  - apply Permutation_refl.
  - destruct (createdAt d <? createdAt x).
    + eapply Permutation_trans; [apply perm_skip, IH | apply perm_swap].
    + apply Permutation_refl.
Qed.

Lemma sort_desc_perm (l : list Doc) : Permutation (sort_desc l) l.
Proof.
  induction l as [|x r IH]; simpl.
  - constructor.
  - eapply Permutation_trans; [apply insert_desc_perm | apply perm_skip, IH].
Qed.

Lemma insert_desc_sorted (d : Doc) (l : list Doc) :
  StronglySorted newer_first l -> StronglySorted newer_first (insert_desc d l).
Proof.
  induction 1 as [|x r Hs IH Hx]; simpl.
  - repeat constructor.
  - destruct (createdAt d <? createdAt x) eqn:E.
    + apply Z.ltb_lt in E. constructor; [exact IH|].
      rewrite Forall_forall in *. intros y Hy.
      apply (Permutation_in _ (insert_desc_perm d r)) in Hy.
      destruct Hy as [<-|Hy]; [unfold newer_first; lia | auto].
    + apply Z.ltb_ge in E. constructor; [constructor; assumption|].
      constructor; [exact E|].
      rewrite Forall_forall in *. intros y Hy.
      specialize (Hx y Hy). unfold newer_first in *. lia.
Qed.

Lemma sort_desc_sorted (l : list Doc) : StronglySorted newer_first (sort_desc l).
Proof.
  induction l as [|x r IH]; simpl; [constructor | apply insert_desc_sorted, IH].
Qed.

(** The head of the sorted list is a document of the collection with the
    greatest [createdAt]. *)
Lemma sort_desc_head (l : list Doc) (d : Doc) :
  hd_error (sort_desc l) = Some d ->
  In d l /\ forall x, In x l -> createdAt x <= createdAt d.
Proof.
  intros H.
  pose proof (sort_desc_perm l) as P.
  pose proof (sort_desc_sorted l) as S.
  destruct (sort_desc l) as [|h t]; [discriminate|].
  injection H as ->. split.
  - apply (Permutation_in _ P). now left.
  - intros x Hx. apply (Permutation_in _ (Permutation_sym P)) in Hx.
    inversion S as [|? ? _ Hall]; subst.
    destruct Hx as [<-|Hx]; [lia|].
    rewrite Forall_forall in Hall. apply (Hall x Hx).
Qed.

Lemma sort_desc_nonempty (l : list Doc) :
  l <> [] -> exists d, hd_error (sort_desc l) = Some d.
Proof.
  intros H. pose proof (sort_desc_perm l) as P.
  destruct (sort_desc l) as [|h t].
  - apply Permutation_nil in P. contradiction.
  - now exists h.
Qed.

(** With unique ids, deleting by the id of a stored document removes that
    document and nothing else. *)
Lemma remove_id_perm (l : list Doc) (d : Doc) :
  NoDup (map _id l) -> In d l -> Permutation l (d :: remove_id (_id d) l).
Proof.
  induction l as [|x r IH]; simpl; intros ND Hin; [contradiction|].
  inversion ND as [|? ? Hnot ND']; subst.
  destruct (Nat.eqb (_id x) (_id d)) eqn:E.
  - apply Nat.eqb_eq in E. destruct Hin as [->|Hin]; [apply Permutation_refl|].
    exfalso. apply Hnot. rewrite E. now apply in_map.
  - destruct Hin as [->|Hin]; [rewrite Nat.eqb_refl in E; discriminate|].
    eapply Permutation_trans; [apply perm_skip, (IH ND' Hin) | apply perm_swap].
Qed.

(** ** The server *)

Section ServerProperties.

Variable Number_toString : number -> string.

Local Abbreviation serve' := (serve Number_toString).
Local Abbreviation post' := (post_measurement Number_toString).

Lemma serve_POST (now : Z) (db : Db) (body : json) :
  serve' now db (POST_measurements body)
  = express_error (post' now db (POST_measurements body)).
Proof. reflexivity. Qed.

Lemma serve_GET (now : Z) (db : Db) (body : json) :
  serve' now db (GET_measurements body) = get_measurements now db (GET_measurements body).
Proof.
  change (serve' now db (GET_measurements body))
    with (express_error (get_measurements now db (GET_measurements body))).
  unfold get_measurements. destruct (find_sorted db); reflexivity.
Qed.

Lemma serve_DELETE_latest_any (now : Z) (db : Db) (body : json) :
  serve' now db (DELETE_latest body)
  = express_error (delete_latest now db (DELETE_latest body)).
Proof. reflexivity. Qed.

(** On a reachable store the DELETE handler always answers itself. *)
Lemma serve_DELETE_latest (now : Z) (db : Db) (body : json) :
  fault db = None ->
  serve' now db (DELETE_latest body) = delete_latest now db (DELETE_latest body).
Proof.
  intros Hf. rewrite serve_DELETE_latest_any.
  unfold delete_latest, findOne_sorted, findByIdAndDelete. rewrite Hf.
  destruct (hd_error (sort_desc (collection db))); reflexivity.
Qed.

(** The guard of line 67 fails exactly when one of its four tests does. *)
Lemma invalid_payload_iff (ty g v u : option json) :
  invalid_payload ty g v u = true <->
  truthy ty = false \/ truthy g = false \/ is_number v = false \/ truthy u = false.
Proof.
  unfold invalid_payload.
  destruct (truthy ty), (truthy g), (is_number v), (truthy u); simpl; intuition congruence.
Qed.

(** POST /api/measurements is answered 400 exactly when the guard fails,
    and then the store is left as it was. *)
Lemma post_400_iff (now : Z) (db : Db) (body : json) :
  (status_of (snd (serve' now db (POST_measurements body))) = Some 400%nat <->
   invalid_payload (prop "type" body) (prop "geojson" body)
                   (prop "value" body) (prop "unit" body) = true) /\
  (invalid_payload (prop "type" body) (prop "geojson" body)
                   (prop "value" body) (prop "unit" body) = true ->
   serve' now db (POST_measurements body) = (db, Reply 400 (error_body "Invalid payload"))).
Proof.
  rewrite serve_POST. unfold post_measurement. cbn [payload POST_measurements]. cbv zeta.
  change (req_body (POST_measurements body)) with body.
  destruct (invalid_payload _ _ _ _) eqn:G.
  - split; [split; reflexivity | reflexivity].
  - split; [|discriminate]. split; [|discriminate].
    destruct (create _ _ _ _ _ _ _) as [e|[db' d]]; simpl; discriminate.
Qed.

(** A payload with both strings in place and a type of the enum passes the
    schema, whatever the (non-null) geojson. *)
Lemma validate_strings (t un : string) (g : json) (n : number) :
  In t type_enum -> un <> "" -> g <> JNull ->
  validate Number_toString (Some (JStr t)) (Some g) (Some (JNum n)) (Some (JStr un))
  = Some (mkFields t g n un).
Proof.
  intros Ht Hu Hg.
  assert (in_enum t = true) as He.
  { unfold in_enum. apply existsb_exists. exists t. split; [exact Ht | apply String.eqb_refl]. }
  assert (String.eqb t "" = false) as Hne.
  { apply String.eqb_neq. intros ->. simpl in Ht. intuition discriminate. }
  apply String.eqb_neq in Hu.
  unfold validate, validate_type, validate_unit, validate_geojson, validate_value,
    castString, castNumber.
  rewrite He, Hne, Hu. simpl.
  destruct g; try reflexivity. contradiction.
Qed.


Lemma truthy_not_null (g : json) : truthy (Some g) = true -> g <> JNull.
Proof. intros H ->. discriminate. Qed.

(** What an accepted create does, in one equation. *)
Lemma post_created (now : Z) (db : Db) (body : json) (t un : string) (g : json) (n : number) :
  prop "type" body = Some (JStr t) ->
  prop "geojson" body = Some g ->
  prop "value" body = Some (JNum n) ->
  prop "unit" body = Some (JStr un) ->
  In t type_enum -> un <> "" -> truthy (Some g) = true ->
  fault db = None ->
  let d := mkDoc (next_id db) t g n un now now in
  serve' now db (POST_measurements body)
  = (mkDb None (collection db ++ [d]) (S (next_id db)), Reply 201 (BDoc d)).
Proof.
  intros Ht Hg Hv Hu Hen Hun Hgt Hf d.
  rewrite serve_POST. unfold post_measurement. cbn [payload POST_measurements]. cbv zeta.
  change (req_body (POST_measurements body)) with body. rewrite Ht, Hg, Hv, Hu.
  assert (invalid_payload (Some (JStr t)) (Some g) (Some (JNum n)) (Some (JStr un)) = false) as ->.
  { unfold invalid_payload. rewrite Hgt. simpl.
    assert (String.eqb t "" = false) as ->.
    { apply String.eqb_neq. intros ->. simpl in Hen. intuition discriminate. }
    apply String.eqb_neq in Hun. now rewrite Hun. }
  unfold create. rewrite (validate_strings t un g n Hen Hun (truthy_not_null g Hgt)), Hf.
  reflexivity.
Qed.

(** Whatever [create] inserts is the validated payload, stamped with the
    next id and the current time, appended to the collection. *)
Lemma create_inv (now : Z) (ty g v u : option json) (db db' : Db) (d : Doc) :
  create Number_toString now ty g v u db = inr (db', d) ->
  exists f, validate Number_toString ty g v u = Some f /\ fault db = None /\
    d = mkDoc (next_id db) (f_type f) (f_geojson f) (f_value f) (f_unit f) now now /\
    db' = mkDb None (collection db ++ [d]) (S (next_id db)).
Proof.
  unfold create. destruct (validate _ _ _ _ _) as [f|]; [|discriminate].
  destruct (fault db); [discriminate|].
  intros H. injection H as <- <-. exists f. repeat split.
Qed.

Lemma validate_value_inv (ty g v u : option json) (f : Fields) :
  validate Number_toString ty g v u = Some f -> v = Some (JNum (f_value f)).
Proof.
  unfold validate.
  destruct (validate_type Number_toString ty); [|discriminate].
  destruct (validate_geojson g); [|discriminate].
  destruct (validate_value v) eqn:V; [|discriminate].
  destruct (validate_unit Number_toString u); [|discriminate].
  intros H. injection H as <-. simpl.
  destruct v as [[]|]; simpl in V; try discriminate. now injection V as ->.
Qed.

(** The POST handler changes the store only by a successful [create]. *)
Lemma post_cases (now : Z) (db : Db) (req : Request) :
  post' now db req = (db, Reply 400 (error_body "Invalid payload")) \/
  (exists e, post' now db req = (db, Uncaught e)) \/
  (exists db' d, post' now db req = (db', Reply 201 (BDoc d)) /\
     create Number_toString now (prop "type" (req_body req)) (prop "geojson" (req_body req))
            (prop "value" (req_body req)) (prop "unit" (req_body req)) db = inr (db', d)).
Proof.
  unfold post_measurement, req_body. cbv zeta.
  destruct (payload req) as [j| |].
  1, 2: destruct (invalid_payload _ _ _ _); [now left|right];
        destruct (create _ _ _ _ _ _ _) as [e|[db' d]] eqn:C;
        [left; now exists e | right; now exists db', d].
  right; left. eexists. reflexivity.
Qed.

(** A 201 answer carries the record that was appended. *)
Lemma post_201_inv (now : Z) (db db' : Db) (body : json) (d : Doc) :
  serve' now db (POST_measurements body) = (db', Reply 201 (BDoc d)) ->
  db' = mkDb None (collection db ++ [d]) (S (next_id db)) /\
  _id d = next_id db /\ createdAt d = now /\ updatedAt d = now /\
  prop "value" body = Some (JNum (value d)).
Proof.
  rewrite serve_POST. intros H.
  destruct (post_cases now db (POST_measurements body)) as [E|[[e E]|(db1 & d1 & E & C)]];
    rewrite E in H; try discriminate.
  injection H as -> ->.
  apply create_inv in C. destruct C as (f & V & _ & Hd & Hdb).
  apply validate_value_inv in V. change (req_body (POST_measurements body)) with body in V.
  subst d. simpl. repeat split; assumption.
Qed.

Lemma Forall_remove_id (P : Doc -> Prop) (i : nat) (l : list Doc) :
  Forall P l -> Forall P (remove_id i l).
Proof.
  induction 1 as [|x r Hx Hr IH]; simpl; [constructor|].
  destruct (Nat.eqb (_id x) i); [assumption | now constructor].
Qed.

(** What the DELETE handler does to a reachable store. *)
Lemma delete_latest_eq (now : Z) (db : Db) (req : Request) :
  fault db = None ->
  delete_latest now db req =
  match hd_error (sort_desc (collection db)) with
  | None => (db, Reply 404 (error_body "No measurements to delete"))
  | Some latest =>
      (set_collection db (remove_id (_id latest) (collection db)),
       Reply 200 (BJson (JObj [("deletedCount", JNum 1%Q)])))
  end.
Proof.
  intros Hf. unfold delete_latest, findOne_sorted, findByIdAndDelete. rewrite Hf.
  destruct (hd_error _); reflexivity.
Qed.

(** *** POST /api/measurements *)


Lemma js_falsy_truthy (v : option json) : js_falsy v <-> truthy v = false.
Proof.
  destruct v as [[|b|n|str|l|fs]|]; simpl; try tauto; try (split; [tauto | discriminate]).
  - unfold is_zero. rewrite negb_false_iff. symmetry. apply Qeq_bool_iff.
  - rewrite negb_false_iff. symmetry. apply String.eqb_eq.
Qed.

(** C10.  The guard tests [type], [geojson] and [unit] for truthiness and
    [value] for its type.  Each of [type], [geojson], [unit] that is
    missing, [null], [false], 0 or the empty string gets the request
    answered 400, an empty string for [type] or [unit] in particular,
    although the field is there; a [value] that is anything but a number
    (missing, [null], a string, ...) gets it answered 400; and a request
    with a numeric [value], 0 included, and none of the three other fields
    falsy is not answered 400 (with value 0 it is stored, with value 0,
    when the rest is in order). *)
Theorem post_guard_truthiness (now : Z) (db : Db) (body : json) :
  (prop "value" body = Some (JNum 0%Q) ->
   truthy (prop "type" body) = true -> truthy (prop "geojson" body) = true ->
   truthy (prop "unit" body) = true ->
   status_of (snd (serve' now db (POST_measurements body))) <> Some 400%nat) /\
  (forall (t un : string) (g : json),
     prop "value" body = Some (JNum 0%Q) ->
     prop "type" body = Some (JStr t) -> In t type_enum ->
     prop "geojson" body = Some g -> truthy (Some g) = true ->
     prop "unit" body = Some (JStr un) -> un <> "" -> fault db = None ->
     exists d : Doc,
       serve' now db (POST_measurements body)
       = (mkDb None (collection db ++ [d]) (S (next_id db)), Reply 201 (BDoc d)) /\
       value d = 0%Q) /\
  (prop "type" body = Some (JStr "") ->
   serve' now db (POST_measurements body) = (db, Reply 400 (error_body "Invalid payload"))) /\
  (prop "unit" body = Some (JStr "") ->
   serve' now db (POST_measurements body) = (db, Reply 400 (error_body "Invalid payload"))) /\
  (js_falsy (prop "type" body) ->
   serve' now db (POST_measurements body) = (db, Reply 400 (error_body "Invalid payload"))) /\
  (js_falsy (prop "geojson" body) ->
   serve' now db (POST_measurements body) = (db, Reply 400 (error_body "Invalid payload"))) /\
  (js_falsy (prop "unit" body) ->
   serve' now db (POST_measurements body) = (db, Reply 400 (error_body "Invalid payload"))) /\
  ((forall n : number, prop "value" body <> Some (JNum n)) ->
   serve' now db (POST_measurements body) = (db, Reply 400 (error_body "Invalid payload"))) /\
  (forall n : number,
     prop "value" body = Some (JNum n) ->
     ~ js_falsy (prop "type" body) -> ~ js_falsy (prop "geojson" body) ->
     ~ js_falsy (prop "unit" body) ->
     status_of (snd (serve' now db (POST_measurements body))) <> Some 400%nat).
Proof.
  destruct (post_400_iff now db body) as [Hiff Hout].
  repeat split.
  - intros Hv Tt Tg Tu H. apply Hiff, invalid_payload_iff in H.
    rewrite Hv, Tt, Tg, Tu in H. simpl in H. intuition discriminate.
  - intros t un g Hv Ht Hen Hg Tg Hu Hun Hf.
    exists (mkDoc (next_id db) t g 0%Q un now now).
    now rewrite (post_created now db body t un g 0%Q Ht Hg Hv Hu Hen Hun Tg Hf).
  - intros Ht. apply Hout, invalid_payload_iff. left. now rewrite Ht.
  - intros Hu. apply Hout, invalid_payload_iff. right; right; right. now rewrite Hu.
  - intros H. apply Hout, invalid_payload_iff. left. now apply js_falsy_truthy.
  - intros H. apply Hout, invalid_payload_iff. right; left. now apply js_falsy_truthy.
  - intros H. apply Hout, invalid_payload_iff. right; right; right. now apply js_falsy_truthy.
  - intros H. apply Hout, invalid_payload_iff. right; right; left.
    destruct (prop "value" body) as [[| |n| | |]|]; try reflexivity.
    now contradiction (H n).
  - intros n Hv Ht Hg Hu H. apply Hiff, invalid_payload_iff in H.
    rewrite Hv in H. simpl in H.
    destruct H as [H|[H|[H|H]]]; [| |discriminate|];
      apply js_falsy_truthy in H; contradiction.
Qed.

(** *** GET /api/measurements *)

(** C4.  GET /api/measurements never changes the store and answers in one
    of two ways: on a reachable store, 200 with every record of the
    collection, newest [createdAt] first; on a failing store, 503 with the
    error and the store's message as details.  There is no third answer,
    and the request without a body is answered as the one with a body. *)
Theorem get_measurements_all_or_503 (now : Z) (db : Db) (body : json) :
  fst (serve' now db (GET_measurements body)) = db /\
  match fault db with
  | None =>
      exists items : list Doc,
        snd (serve' now db (GET_measurements body)) = Reply 200 (BDocs items) /\
        Permutation items (collection db) /\
        StronglySorted newer_first items
  | Some msg =>
      snd (serve' now db (GET_measurements body))
      = Reply 503 (BJson (JObj [("error", JStr "Database unavailable");
                                ("details", JStr msg)]))
  end /\
  serve' now db GET_list = serve' now db (GET_measurements body).
Proof.
  split; [|split; [|reflexivity]]; rewrite serve_GET; unfold get_measurements, find_sorted.
  - destruct (fault db); reflexivity.
  - destruct (fault db) as [msg|]; simpl; [reflexivity|].
    exists (sort_desc (collection db)).
    split; [reflexivity | split; [apply sort_desc_perm | apply sort_desc_sorted]].
Qed.

(** *** DELETE /api/measurements/latest *)

(** C3.  On the empty (reachable) store DELETE /api/measurements/latest
    answers 404, leaves the store as it is, and its answer is not the
    deleted-count-1 answer; with a JSON body or, as the component sends
    it, without one. *)
Theorem delete_latest_empty (now : Z) (n : nat) (body : json) :
  serve' now (mkDb None [] n) (DELETE_latest body)
  = (mkDb None [] n, Reply 404 (error_body "No measurements to delete")) /\
  snd (serve' now (mkDb None [] n) (DELETE_latest body))
  <> Reply 200 (BJson (JObj [("deletedCount", JNum 1%Q)])) /\
  serve' now (mkDb None [] n) DELETE_last
  = (mkDb None [] n, Reply 404 (error_body "No measurements to delete")).
Proof.
  rewrite serve_DELETE_latest by reflexivity.
  split; [reflexivity | split; [discriminate | reflexivity]].
Qed.

(** *** GET /api/health *)

(** C7.  GET /api/health answers 200 with [{ok: true}] whatever the state
    of the store (reachable or not), whatever the body of the request and
    whatever the time: no store operation is involved, and the store is
    left as it is. *)
Theorem health_always_ok (now : Z) (db : Db) (p : string) (pl : Payload) :
  path_matches "/api/health" p = true ->
  serve' now db (mkRequest GET p pl) = (db, Reply 200 (BJson (JObj [("ok", JBool true)]))).
Proof.
  intros H. unfold serve, app. cbn [dispatch]. unfold route at 1.
  cbn [method path]. rewrite H. reflexivity.
Qed.

(** DELETE /api/measurements/latest where C2 holds.  On a reachable store
    with at least one record (ids unique), the answer is 200 with
    deleted-count 1 and exactly one record is removed, one whose [createdAt]
    is the maximum of the store.  After record A and then record B are
    inserted into an empty store, with B's [createdAt] strictly later than
    A's, deleting latest removes B and the next listing returns A alone. *)
Theorem delete_latest_removes_newest :
  (forall (now : Z) (db : Db) (body : json),
     fault db = None -> collection db <> [] -> NoDup (map _id (collection db)) ->
     exists (d : Doc) (db' : Db),
       serve' now db (DELETE_latest body)
       = (db', Reply 200 (BJson (JObj [("deletedCount", JNum 1%Q)]))) /\
       In d (collection db) /\
       (forall x, In x (collection db) -> createdAt x <= createdAt d) /\
       Permutation (collection db) (d :: collection db') /\
       fault db' = None /\ next_id db' = next_id db) /\
  (forall (tA tB t3 t4 : Z) (n : nat) (bodyA bodyB body3 body4 : json)
          (db1 db2 : Db) (dA dB : Doc),
     serve' tA (mkDb None [] n) (POST_measurements bodyA) = (db1, Reply 201 (BDoc dA)) ->
     serve' tB db1 (POST_measurements bodyB) = (db2, Reply 201 (BDoc dB)) ->
     tA < tB ->
     exists db3 : Db,
       serve' t3 db2 (DELETE_latest body3)
       = (db3, Reply 200 (BJson (JObj [("deletedCount", JNum 1%Q)]))) /\
       collection db3 = [dA] /\
       serve' t4 db3 (GET_measurements body4) = (db3, Reply 200 (BDocs [dA]))).
Proof.
  split.
  - intros now db body Hf Hne Hnd.
    destruct (sort_desc_nonempty (collection db) Hne) as [d Hd].
    destruct (sort_desc_head (collection db) d Hd) as [Hin Hmax].
    exists d, (set_collection db (remove_id (_id d) (collection db))).
    rewrite (serve_DELETE_latest now db body Hf), (delete_latest_eq now db _ Hf), Hd.
    repeat split; try assumption.
    simpl. apply remove_id_perm; assumption.
  - intros tA tB t3 t4 n bodyA bodyB body3 body4 db1 db2 dA dB HA HB Hlt.
    apply post_201_inv in HA. destruct HA as (-> & HidA & HtA & _).
    apply post_201_inv in HB. destruct HB as (-> & HidB & HtB & _).
    simpl in HidB. simpl collection.
    exists (mkDb None [dA] (S (S n))).
    rewrite serve_DELETE_latest, delete_latest_eq by reflexivity.
    simpl. rewrite HtA, HtB.
    assert ((tA <? tB) = true) as -> by (apply Z.ltb_lt; exact Hlt).
    simpl. rewrite HidA, HidB. simpl.
    assert (Nat.eqb n (S n) = false) as -> by (apply Nat.eqb_neq; lia).
    rewrite Nat.eqb_refl. repeat split.
Qed.

(** *** What a request can do to the store *)

Lemma serve_store_effect (now : Z) (db : Db) (req : Request) :
  (exists r, serve' now db req = (db, r)) \/
  serve' now db req = express_error (post' now db req) \/
  serve' now db req = express_error (delete_latest now db req).
Proof.
  unfold serve, app. cbn [dispatch]. unfold route, cors, express_json, logger, not_found.
  destruct (method_matches GET (method req) && path_matches "/api/health" (path req));
    [left; eexists; reflexivity|].
  destruct (method req) eqn:M; try (left; eexists; reflexivity);
    (destruct (payload req) eqn:P; [|left; eexists; reflexivity|]);
    (destruct (method_matches GET _ && path_matches "/" (path req));
       [left; eexists; reflexivity|]);
    (destruct (method_matches GET _ && path_matches "/api/measurements" (path req));
       [left; unfold get_measurements; destruct (find_sorted db); eexists; reflexivity|]);
    (destruct (method_matches POST _ && path_matches "/api/measurements" (path req));
       [right; left; reflexivity|]);
    (destruct (method_matches DELETE _ && path_matches "/api/measurements/latest" (path req));
       [right; right; reflexivity|]);
    left; eexists; reflexivity.
Qed.

(** The ids stay unique: every request keeps [wf_db]. *)
Lemma remove_id_incl (i : nat) (l : list Doc) (x : Doc) :
  In x (remove_id i l) -> In x l.
Proof.
  induction l as [|y r IH]; simpl; [tauto|].
  destruct (Nat.eqb (_id y) i); simpl; intuition.
Qed.

Lemma remove_id_NoDup (i : nat) (l : list Doc) :
  NoDup (map _id l) -> NoDup (map _id (remove_id i l)).
Proof.
  induction l as [|y r IH]; simpl; intros ND; [constructor|].
  inversion ND as [|? ? Hnot ND']; subst.
  destruct (Nat.eqb (_id y) i); [exact ND'|].
  simpl. constructor; [|exact (IH ND')].
  intros Hin. apply Hnot. apply in_map_iff in Hin. destruct Hin as (x & Hx & Hin).
  rewrite <- Hx. apply in_map, (remove_id_incl i r x Hin).
Qed.

Lemma serve_wf (now : Z) (db : Db) (req : Request) :
  wf_db db -> wf_db (fst (serve' now db req)).
Proof.
  intros [ND Hlt].
  destruct (serve_store_effect now db req) as [[r ->]|[->| ->]]; [now split| |].
  - destruct (post_cases now db req) as [->|[[e ->]|(db' & d & -> & C)]];
      [now split | now split |].
    apply create_inv in C. destruct C as (f & _ & _ & -> & ->).
    unfold wf_db. simpl. split.
    + rewrite map_app. simpl. apply NoDup_app; [exact ND | repeat constructor; simpl; tauto |].
      intros i Hi [<-|[]]. apply in_map_iff in Hi. destruct Hi as (x & Hx & Hin).
      rewrite Forall_forall in Hlt. specialize (Hlt x Hin). lia.
    + apply Forall_app. split.
      * eapply Forall_impl; [|exact Hlt]. simpl. intros; lia.
      * repeat constructor.
  - unfold delete_latest, findOne_sorted, findByIdAndDelete.
    destruct (fault db); [now split|].
    destruct (hd_error _); [|now split].
    unfold wf_db. simpl. split; [apply remove_id_NoDup, ND | apply Forall_remove_id, Hlt].
Qed.


(** C8 (amended).  The server tests [value] for being a number, not for
    its sign: the stored value is the submitted one.  So a store whose
    values are all non-negative stays so under every request whose [value],
    when it is a number, is non-negative. *)
Theorem nonneg_values_preserved (now : Z) (db : Db) (req : Request) :
  nonneg_values db ->
  (forall q : number, prop "value" (req_body req) = Some (JNum q) -> (0 <= q)%Q) ->
  nonneg_values (fst (serve' now db req)).
Proof.
  intros Hinv Hval.
  destruct (serve_store_effect now db req) as [[r ->]|[->| ->]]; [exact Hinv| |].
  - destruct (post_cases now db req) as [->|[[e ->]|(db' & d & -> & C)]];
      [exact Hinv | exact Hinv |].
    apply create_inv in C. destruct C as (f & V & _ & -> & ->).
    unfold nonneg_values. simpl. apply Forall_app. split; [exact Hinv|].
    constructor; [|constructor]. simpl.
    apply Hval, (validate_value_inv _ _ _ _ _ V).
  - unfold delete_latest, findOne_sorted, findByIdAndDelete.
    destruct (fault db); [exact Hinv|].
    destruct (hd_error _); [|exact Hinv].
    unfold nonneg_values. simpl. apply Forall_remove_id, Hinv.
Qed.

(** *** Requests no route matches *)

(** C9 (amended).  A request that matches none of the defined routes, is
    not an OPTIONS request (those are answered 204 by the CORS layer) and
    has no body the JSON parser fails on, is answered 404 with the store
    left as it is; DELETE /api/measurements, for which there is no route,
    is such a request, with a JSON body or without a body. *)
Theorem unmatched_is_404 :
  (forall (now : Z) (db : Db) (req : Request),
     method req <> OPTIONS -> payload req <> Malformed -> matches_route req = false ->
     serve' now db req = (db, Reply 404 (error_body "Not found"))) /\
  (forall (now : Z) (db : Db) (body : json),
     serve' now db (mkRequest DELETE "/api/measurements" (Parsed body))
     = (db, Reply 404 (error_body "Not found"))) /\
  (forall (now : Z) (db : Db),
     serve' now db DELETE_all = (db, Reply 404 (error_body "Not found"))).
Proof.
  split; [|split; reflexivity].
  intros now db [m p pl] Hm Hp Hr. simpl in Hm, Hp.
  unfold matches_route, defined_routes in Hr. cbn [existsb fst snd method path] in Hr.
  apply orb_false_iff in Hr. destruct Hr as [R1 Hr].
  apply orb_false_iff in Hr. destruct Hr as [R2 Hr].
  apply orb_false_iff in Hr. destruct Hr as [R3 Hr].
  apply orb_false_iff in Hr. destruct Hr as [R4 Hr].
  apply orb_false_iff in Hr. destruct Hr as [R5 _].
  unfold serve, app. cbn [dispatch]. unfold route, cors, express_json, logger, not_found.
  cbn [method path payload]. rewrite R1, R2, R3, R4, R5.
  destruct pl; [|contradiction|]; (destruct m; try reflexivity; contradiction).
Qed.

End ServerProperties.

(** *** Closed instances *)



Lemma post_guard_truthiness_witness :
  status_of (snd (serve sample_toString 1000 db_empty (POST_measurements body_zero)))
  <> Some 400%nat /\
  (exists d : Doc,
     serve sample_toString 1000 db_empty (POST_measurements body_zero)
     = (mkDb None (collection db_empty ++ [d]) (S (next_id db_empty)), Reply 201 (BDoc d)) /\
     value d = 0%Q) /\
  serve sample_toString 1000 db_empty (POST_measurements body_empty_type)
  = (db_empty, Reply 400 (error_body "Invalid payload")) /\
  serve sample_toString 1000 db_empty (POST_measurements body_empty_unit)
  = (db_empty, Reply 400 (error_body "Invalid payload")) /\
  serve sample_toString 1000 db_empty (POST_measurements body_no_type)
  = (db_empty, Reply 400 (error_body "Invalid payload")) /\
  serve sample_toString 1000 db_empty (POST_measurements body_null_geojson)
  = (db_empty, Reply 400 (error_body "Invalid payload")) /\
  serve sample_toString 1000 db_empty (POST_measurements body_zero_unit)
  = (db_empty, Reply 400 (error_body "Invalid payload")) /\
  serve sample_toString 1000 db_empty (POST_measurements body_string_value)
  = (db_empty, Reply 400 (error_body "Invalid payload")) /\
  status_of (snd (serve sample_toString 1000 db_empty (POST_measurements body_negative)))
  <> Some 400%nat.
Proof.
  pose proof (fun b => post_guard_truthiness sample_toString 1000 db_empty b) as T.
  split; [|split; [|split; [|split; [|split; [|split; [|split; [|split]]]]]]].
  - apply (proj1 (T body_zero)); reflexivity.
  - apply (proj1 (proj2 (T body_zero)) "LineString" "m" (JObj [("type", JStr "Feature")]));
      try reflexivity.
    + simpl. auto.
    + discriminate.
  - apply (proj1 (proj2 (proj2 (T body_empty_type)))). reflexivity.
  - apply (proj1 (proj2 (proj2 (proj2 (T body_empty_unit))))). reflexivity.
  - apply (proj1 (proj2 (proj2 (proj2 (proj2 (T body_no_type)))))). exact I.
  - apply (proj1 (proj2 (proj2 (proj2 (proj2 (proj2 (T body_null_geojson))))))). exact I.
  - apply (proj1 (proj2 (proj2 (proj2 (proj2 (proj2 (proj2 (T body_zero_unit)))))))).
    reflexivity.
  - apply (proj1 (proj2 (proj2 (proj2 (proj2 (proj2 (proj2 (proj2 (T body_string_value))))))))).
    intros n. discriminate.
  - apply (proj2 (proj2 (proj2 (proj2 (proj2 (proj2 (proj2 (proj2 (T body_negative))))))))
             (-5)%Q); [reflexivity | | |]; simpl; intros H;
      solve [discriminate H | contradiction].
Defined.

Lemma health_always_ok_witness :
  serve sample_toString 0 (mkDb (Some "connection refused") [] 0)
        (mkRequest GET "/API/Health/" Malformed)
  = (mkDb (Some "connection refused") [] 0, Reply 200 (BJson (JObj [("ok", JBool true)]))).
Proof. apply health_always_ok. reflexivity. Defined.

Lemma delete_latest_removes_newest_witness :
  (exists (d : Doc) (db' : Db),
     serve sample_toString 1002 (mkDb None [doc_line; doc_polygon_later] 2)
           (DELETE_latest body_empty_object)
     = (db', Reply 200 (BJson (JObj [("deletedCount", JNum 1%Q)]))) /\
     In d [doc_line; doc_polygon_later] /\
     (forall x, In x [doc_line; doc_polygon_later] -> createdAt x <= createdAt d) /\
     Permutation [doc_line; doc_polygon_later] (d :: collection db') /\
     fault db' = None /\ next_id db' = 2%nat) /\
  (exists db3 : Db,
     serve sample_toString 1002 (mkDb None [doc_line; doc_polygon_later] 2)
           (DELETE_latest body_empty_object)
     = (db3, Reply 200 (BJson (JObj [("deletedCount", JNum 1%Q)]))) /\
     collection db3 = [doc_line] /\
     serve sample_toString 1003 db3 (GET_measurements body_empty_object)
     = (db3, Reply 200 (BDocs [doc_line]))).
Proof.
  split.
  - apply (proj1 (delete_latest_removes_newest sample_toString)
             1002 (mkDb None [doc_line; doc_polygon_later] 2) body_empty_object).
    + reflexivity.
    + discriminate.
    + simpl. repeat constructor; simpl; intuition discriminate.
  - apply (proj2 (delete_latest_removes_newest sample_toString)
             1000 1001 1002 1003 0%nat body_line body_polygon body_empty_object body_empty_object
             (mkDb None [doc_line] 1) (mkDb None [doc_line; doc_polygon_later] 2)
             doc_line doc_polygon_later); [reflexivity | reflexivity | lia].
Defined.

(** C2 fails at a tie.  [body_line] (record A) and then [body_polygon]
    (record B) are inserted into the empty store within the same
    millisecond, so both have [createdAt] 1000.  DELETE latest then removes
    A, the older insertion, and the listing that follows returns B alone,
    where C2 has B removed and A listed. *)
Lemma delete_latest_tie :
  serve sample_toString 1000 db_empty (POST_measurements body_line)
  = (mkDb None [doc_line] 1, Reply 201 (BDoc doc_line)) /\
  serve sample_toString 1000 (mkDb None [doc_line] 1) (POST_measurements body_polygon)
  = (mkDb None [doc_line; doc_polygon] 2, Reply 201 (BDoc doc_polygon)) /\
  serve sample_toString 1001 (mkDb None [doc_line; doc_polygon] 2) (DELETE_latest body_empty_object)
  = (mkDb None [doc_polygon] 2, Reply 200 (BJson (JObj [("deletedCount", JNum 1%Q)]))) /\
  serve sample_toString 1002 (mkDb None [doc_polygon] 2) (GET_measurements body_empty_object)
  = (mkDb None [doc_polygon] 2, Reply 200 (BDocs [doc_polygon])) /\
  doc_polygon <> doc_line /\
  serve sample_toString 1001 (mkDb None [doc_line; doc_polygon] 2) DELETE_last
  = (mkDb None [doc_polygon] 2, Reply 200 (BJson (JObj [("deletedCount", JNum 1%Q)]))) /\
  serve sample_toString 1002 (mkDb None [doc_polygon] 2) GET_list
  = (mkDb None [doc_polygon] 2, Reply 200 (BDocs [doc_polygon])).
Proof. repeat split. discriminate. Qed.

Lemma nonneg_values_preserved_witness :
  nonneg_values (fst (serve sample_toString 1000 (mkDb None [doc_line] 1)
                            (POST_measurements body_polygon))).
Proof.
  apply nonneg_values_preserved.
  - unfold nonneg_values. simpl. repeat constructor. simpl. discriminate.
  - intros q H. simpl in H. injection H as <-. discriminate.
Defined.

(** C8, as stated, fails: a POST whose value is -5 is accepted, and the
    record it persists has the negative value. *)
Lemma negative_value_persisted :
  exists d : Doc,
    serve sample_toString 1000 db_empty (POST_measurements body_negative)
    = (mkDb None [d] 1, Reply 201 (BDoc d)) /\
    (value d < 0)%Q /\
    ~ nonneg_values (fst (serve sample_toString 1000 db_empty (POST_measurements body_negative))).
Proof.
  eexists. split; [reflexivity|]. split; [reflexivity|].
  intros H. unfold nonneg_values in H. simpl in H.
  inversion H as [|? ? Hd _]; subst. simpl in Hd. apply Hd. reflexivity.
Qed.

Lemma unmatched_is_404_witness :
  serve sample_toString 0 db_empty (mkRequest DELETE "/api/measurements" (Parsed body_empty_object))
  = (db_empty, Reply 404 (error_body "Not found")) /\
  serve sample_toString 0 db_empty (mkRequest PUT "/api/measurements/latest" NoBody)
  = (db_empty, Reply 404 (error_body "Not found")).
Proof.
  split.
  - apply (proj1 (unmatched_is_404 sample_toString) 0 db_empty);
      [discriminate | discriminate | reflexivity].
  - apply (proj1 (unmatched_is_404 sample_toString) 0 db_empty);
      [discriminate | discriminate | reflexivity].
Defined.

(** C9, as stated, fails: no route is defined for OPTIONS /api/nothing,
    and the answer is the CORS layer's 204, not 404. *)
Lemma options_unmatched_is_204 :
  matches_route (mkRequest OPTIONS "/api/nothing" (Parsed body_empty_object)) = false /\
  serve sample_toString 0 db_empty (mkRequest OPTIONS "/api/nothing" (Parsed body_empty_object))
  = (db_empty, Reply 204 BEmpty) /\
  status_of (snd (serve sample_toString 0 db_empty
                        (mkRequest OPTIONS "/api/nothing" (Parsed body_empty_object))))
  <> Some 404%nat.
Proof. repeat split. discriminate. Qed.

(** ** The client *)

Section ClientProperties.

Variable transformCoord : Projection -> Projection -> coord -> coord.
Variable getLength : Geometry -> Projection -> number.
Variable getArea : Geometry -> Projection -> number.

Local Abbreviation to_measurement' := (to_measurement transformCoord getLength getArea).
Local Abbreviation finishDrawing' := (finishDrawing transformCoord getLength getArea).
Local Abbreviation tr := (transformCoord EPSG3857 EPSG4326).

(** C6.  A drawn LineString or Polygon is reprojected from EPSG:3857 to
    EPSG:4326; its value is [getLength], respectively [getArea], of the
    reprojected geometry under EPSG:4326; its unit is "m", respectively
    "m²"; and its geojson is a Feature whose geometry has the shape's type
    and the reprojected coordinates, those of a Polygon being the first
    (outer) ring inside one more array.  A feature without geometry or of
    another kind gives no measurement.  The unit is "m" exactly for type
    "LineString" and "m²" exactly for type "Polygon". *)
Theorem to_measurement_spec (f : Feature) :
  to_measurement' f =
  match getGeometry f with
  | Some (LineString cs) =>
      Some (mkMeasurement "LineString"
              (JObj [("type", JStr "Feature");
                     ("geometry", JObj [("type", JStr "LineString");
                                        ("coordinates", coords_json (map tr cs))])])
              (getLength (LineString (map tr cs)) EPSG4326) "m")
  | Some (Polygon (outer :: holes)) =>
      Some (mkMeasurement "Polygon"
              (JObj [("type", JStr "Feature");
                     ("geometry", JObj [("type", JStr "Polygon");
                                        ("coordinates", JArr [coords_json (map tr outer)])])])
              (getArea (Polygon (map (map tr) (outer :: holes))) EPSG4326) "m²")
  | Some (Polygon []) =>
      Some (mkMeasurement "Polygon"
              (JObj [("type", JStr "Feature");
                     ("geometry", JObj [("type", JStr "Polygon");
                                        ("coordinates", JArr [JNull])])])
              (getArea (Polygon []) EPSG4326) "m²")
  | Some (Other _) => None
  | None => None
  end /\
  (forall m : Measurement,
     to_measurement' f = Some m ->
     (m_unit m = "m" <-> m_type m = "LineString") /\
     (m_unit m = "m²" <-> m_type m = "Polygon") /\
     (m_type m = "LineString" \/ m_type m = "Polygon") /\
     (exists coordinates : json,
        m_geojson m = feature_json (m_type m) coordinates)).
Proof.
  unfold to_measurement.
  destruct (getGeometry f) as [[cs|[|outer holes]|k]|]; simpl.
  - split; [reflexivity|]. intros m H. injection H as <-. simpl.
    repeat split; try discriminate; auto. eexists; reflexivity.
  - split; [reflexivity|]. intros m H. injection H as <-. simpl.
    repeat split; try discriminate; auto. eexists; reflexivity.
  - split; [reflexivity|]. intros m H. injection H as <-. simpl.
    repeat split; try discriminate; auto. eexists; reflexivity.
  - destruct k; simpl; split; try reflexivity; discriminate.
  - split; [reflexivity | discriminate].
Qed.

(** *** Batches *)

Lemma count_next_perm (l l' : list Outcome) :
  Permutation l l' -> count_next l = count_next l'.
Proof.
  induction 1 as [|x l l' _ IH|x y l|l l' l'' _ IH1 _ IH2]; simpl.
  - reflexivity.
  - destruct x; congruence.
  - destruct x, y; reflexivity.
  - congruence.
Qed.

(** Once a call has failed, or while too few calls can still succeed, no
    callback promotes anything; and from the first failure on the status
    line is the failure message. *)
Lemma batch_with_failure (os : list Outcome) :
  forall (a : App) (b : Batch),
    failed b = true \/ (done b + count_next os < total b)%nat ->
    savedSource (fst (fold_left callback os (a, b))) = savedSource a /\
    pendingSource (fst (fold_left callback os (a, b))) = pendingSource a /\
    ((failed b = true /\ lastInfo a = msg_failed) \/ In Error os ->
     lastInfo (fst (fold_left callback os (a, b))) = msg_failed).
Proof.
  induction os as [|o os IH]; intros a b Hc.
  - simpl. repeat split. intros [[_ H]|[]]. exact H.
  - destruct o; cbn [fold_left callback].
    + assert (on_next (a, b)
              = (a, mkBatch (features b) (total b) (S (done b)) (failed b))) as ->.
      { unfold on_next. destruct Hc as [Hf|Hlt].
        - rewrite Hf. reflexivity.
        - simpl in Hlt.
          assert (Nat.eqb (S (done b)) (total b) = false) as ->
              by (apply Nat.eqb_neq; lia).
          now rewrite andb_false_r. }
      destruct (IH a (mkBatch (features b) (total b) (S (done b)) (failed b)))
        as (Hs & Hp & Hl).
      { simpl in *. destruct Hc as [Hf|Hlt]; [now left | right; lia]. }
      repeat split; try assumption.
      intros [H|[H|H]]; [apply Hl; now left | discriminate | apply Hl; now right].
    + unfold on_error.
      destruct (IH (mkApp (savedSource a) (pendingSource a) msg_failed)
                   (mkBatch (features b) (total b) (done b) true))
        as (Hs & Hp & Hl); [now left|].
      repeat split; try assumption. intros _. apply Hl. left. split; reflexivity.
Qed.

(** C5 (amended).  For a batch of 3 drawn shapes whose 2nd create call
    fails while the other two succeed, in whatever order the three calls
    complete, the final status message is the failure message and no shape
    of the batch is promoted: the saved layer is as before and all three
    shapes are still pending. *)
Theorem batch_of_three_second_fails (a : App) (arrival : list nat) :
  List.length (build_payloads transformCoord getLength getArea (pendingSource a)) = 3%nat ->
  Permutation arrival [0; 1; 2]%nat ->
  lastInfo (finishDrawing' a [Next; Error; Next] arrival) = msg_failed /\
  savedSource (finishDrawing' a [Next; Error; Next] arrival) = savedSource a /\
  pendingSource (finishDrawing' a [Next; Error; Next] arrival) = pendingSource a.
Proof.
  intros H3 Hperm. unfold finishDrawing, finishDrawing_begin.
  destruct (pendingSource a) as [|f fs] eqn:Hp; [discriminate|].
  cbn [List.length Nat.eqb]. rewrite H3. cbn [Nat.eqb].
  set (os := map (fun i => nth i [Next; Error; Next] Next) arrival).
  assert (Permutation os [Next; Error; Next]) as Hos
      by (apply (Permutation_map (fun i => nth i [Next; Error; Next] Next)) in Hperm;
          exact Hperm).
  destruct (batch_with_failure os a (mkBatch (f :: fs) 3 0 false)) as (Hs & Hpd & Hl).
  { right. rewrite (count_next_perm _ _ Hos). simpl. lia. }
  split; [|split].
  - apply Hl. right. apply (Permutation_in _ (Permutation_sym Hos)). simpl. auto.
  - exact Hs.
  - rewrite Hpd. exact Hp.
Qed.

End ClientProperties.

(** *** Closed instances *)

Lemma to_measurement_spec_witness :
  (m_unit sample_line_measurement = "m" <-> m_type sample_line_measurement = "LineString") /\
  (m_unit sample_line_measurement = "m²" <-> m_type sample_line_measurement = "Polygon") /\
  (m_type sample_line_measurement = "LineString" \/
   m_type sample_line_measurement = "Polygon") /\
  (exists coordinates : json,
     m_geojson sample_line_measurement
     = feature_json (m_type sample_line_measurement) coordinates).
Proof.
  apply (proj2 (to_measurement_spec sample_transformCoord sample_getLength sample_getArea
                  (sample_line 1)) sample_line_measurement).
  reflexivity.
Defined.

Lemma batch_of_three_second_fails_witness :
  lastInfo (finishDrawing sample_transformCoord sample_getLength sample_getArea
              app_three_pending [Next; Error; Next] [2; 0; 1]%nat) = msg_failed /\
  savedSource (finishDrawing sample_transformCoord sample_getLength sample_getArea
                 app_three_pending [Next; Error; Next] [2; 0; 1]%nat)
  = savedSource app_three_pending /\
  pendingSource (finishDrawing sample_transformCoord sample_getLength sample_getArea
                   app_three_pending [Next; Error; Next] [2; 0; 1]%nat)
  = pendingSource app_three_pending.
Proof.
  apply batch_of_three_second_fails; [reflexivity|].
  apply Permutation_sym.
  apply (perm_trans (l' := [1; 0; 2]%nat)); [apply perm_swap|].
  apply (perm_trans (l' := [1; 2; 0]%nat)); [apply perm_skip, perm_swap|].
  apply (perm_trans (l' := [2; 1; 0]%nat)); [apply perm_swap|].
  apply perm_skip, perm_swap.
Defined.

(** C5, as stated, fails: with three pending shapes, the 2nd call failing
    and the calls completing in the order they were made, the saved layer
    ends with no shape, not with two, and the three shapes are still
    pending. *)
Lemma batch_failure_promotes_nothing :
  List.length (build_payloads sample_transformCoord sample_getLength sample_getArea
                 (pendingSource app_three_pending)) = 3%nat /\
  lastInfo (finishDrawing sample_transformCoord sample_getLength sample_getArea
              app_three_pending [Next; Error; Next] [0; 1; 2]%nat) = msg_failed /\
  List.length (savedSource (finishDrawing sample_transformCoord sample_getLength sample_getArea
                              app_three_pending [Next; Error; Next] [0; 1; 2]%nat)) = 0%nat /\
  List.length (savedSource (finishDrawing sample_transformCoord sample_getLength sample_getArea
                              app_three_pending [Next; Error; Next] [0; 1; 2]%nat)) <> 2%nat /\
  List.length (pendingSource (finishDrawing sample_transformCoord sample_getLength sample_getArea
                                app_three_pending [Next; Error; Next] [0; 1; 2]%nat)) = 3%nat.
Proof. repeat split. discriminate. Qed.

(** When all three calls succeed, the three shapes are promoted. *)
Example batch_all_succeed :
  finishDrawing sample_transformCoord sample_getLength sample_getArea
    app_three_pending [Next; Next; Next] [1; 2; 0]%nat
  = mkApp [sample_line 1; sample_polygon 2; sample_line 3] [] msg_saved.
Proof. reflexivity. Qed.

(** ** Client and server together *)

(** X8.  Every measurement the client builds passes the server's guard and
    schema: on a reachable store it is stored as it was sent and answered
    201. *)
Lemma client_measurement_created
      (Number_toString : number -> string)
      (transformCoord : Projection -> Projection -> coord -> coord)
      (getLength getArea : Geometry -> Projection -> number)
      (now : Z) (db : Db) (f : Feature) (m : Measurement) :
  to_measurement transformCoord getLength getArea f = Some m ->
  fault db = None ->
  serve Number_toString now db (POST_measurements (measurement_json m))
  = (mkDb None
          (collection db ++
           [mkDoc (next_id db) (m_type m) (m_geojson m) (m_value m) (m_unit m) now now])
          (S (next_id db)),
     Reply 201 (BDoc (mkDoc (next_id db) (m_type m) (m_geojson m) (m_value m) (m_unit m)
                            now now))).
Proof.
  intros H Hf. rewrite serve_POST.
  apply post_created; try reflexivity; try exact Hf;
    unfold to_measurement in H;
    destruct (getGeometry f) as [[cs|rs|k]|]; simpl in H; try discriminate;
    try (destruct k; discriminate);
    injection H as <-; simpl; auto; discriminate.
Qed.

(** * Further properties *)

(** ** The server over several requests *)

Section ServerSessions.

Variable Number_toString : number -> string.

Local Abbreviation serve' := (serve Number_toString).
Local Abbreviation run' := (run Number_toString).

Lemma remove_id_length (i : nat) (l : list Doc) :
  (exists x, In x l /\ _id x = i) -> S (List.length (remove_id i l)) = List.length l.
Proof.
  induction l as [|y r IH]; simpl; intros (x & Hin & Hx); [contradiction|].
  destruct (Nat.eqb (_id y) i) eqn:E; [reflexivity|].
  simpl. f_equal. apply IH. destruct Hin as [->|Hin].
  - rewrite Hx, Nat.eqb_refl in E. discriminate.
  - now exists x.
Qed.

(** Deleting by an id that no stored record has, after appending a record
    with that id, gives the collection back. *)
Lemma remove_id_appended (l : list Doc) (d : Doc) :
  Forall (fun x => (_id x < _id d)%nat) l -> remove_id (_id d) (l ++ [d]) = l.
Proof.
  induction 1 as [|x r Hx _ IH]; simpl.
  - now rewrite Nat.eqb_refl.
  - assert (Nat.eqb (_id x) (_id d) = false) as -> by (apply Nat.eqb_neq; lia).
    now rewrite IH.
Qed.

(** A record newer than all the others goes to the front of the listing. *)
Lemma sort_desc_newest (l : list Doc) (d : Doc) :
  Forall (fun x => createdAt x < createdAt d) l ->
  sort_desc (l ++ [d]) = d :: sort_desc l.
Proof.
  induction 1 as [|x r Hx _ IH]; simpl; [reflexivity|].
  fold (sort_desc (r ++ [d])). rewrite IH. simpl.
  assert ((createdAt x <? createdAt d) = true) as -> by (apply Z.ltb_lt; exact Hx).
  reflexivity.
Qed.

(** X1.  Records are immutable: a request leaves the collection as it is,
    or appends one record stamped with the next id and the time of the
    request (and answers 201 with it), or removes one record (and answers
    deleted-count 1); it never changes or reorders the records that stay,
    and it never changes the reachability of the store. *)
Theorem records_immutable (now : Z) (db : Db) (req : Request) :
  fault (fst (serve' now db req)) = fault db /\
  (collection (fst (serve' now db req)) = collection db \/
   (exists d : Doc,
      collection (fst (serve' now db req)) = (collection db ++ [d])%list /\
      snd (serve' now db req) = Reply 201 (BDoc d) /\
      _id d = next_id db /\ createdAt d = now /\ updatedAt d = now) \/
   (exists d : Doc,
      In d (collection db) /\
      collection (fst (serve' now db req)) = remove_id (_id d) (collection db) /\
      snd (serve' now db req) = deleted_one /\
      S (List.length (collection (fst (serve' now db req)))) = List.length (collection db))).
Proof.
  destruct (serve_store_effect Number_toString now db req) as [[r ->]|[->| ->]].
  - split; [reflexivity | now left].
  - destruct (post_cases Number_toString now db req) as [->|[[e ->]|(db' & d & -> & C)]];
      [split; [reflexivity | now left] | split; [reflexivity | now left] |].
    apply create_inv in C. destruct C as (f & _ & Hf & -> & ->). simpl.
    split; [now rewrite Hf|]. right; left. eexists. repeat split.
  - unfold delete_latest, findOne_sorted, findByIdAndDelete.
    destruct (fault db) eqn:Hf; [simpl; split; [exact Hf | now left]|].
    destruct (hd_error (sort_desc (collection db))) as [d|] eqn:Hd;
      [|simpl; split; [exact Hf | now left]].
    simpl. split; [exact Hf|]. right; right.
    destruct (sort_desc_head (collection db) d Hd) as [Hin _].
    exists d. repeat split; try assumption.
    apply remove_id_length. now exists d.
Qed.

(** The handlers of the listing and of DELETE latest do not read the
    request: a body changes nothing. *)
Lemma serve_GET_list (now : Z) (db : Db) (body : json) :
  serve' now db GET_list = serve' now db (GET_measurements body).
Proof. reflexivity. Qed.

Lemma serve_DELETE_last (now : Z) (db : Db) (body : json) :
  serve' now db DELETE_last = serve' now db (DELETE_latest body).
Proof. reflexivity. Qed.

(** A POST without a parsed body: line 65 throws and Express answers 500. *)
Lemma post_without_body (now : Z) (db : Db) :
  serve' now db (mkRequest POST "/api/measurements" NoBody) = (db, Reply 500 BErrorPage).
Proof. reflexivity. Qed.

(** X2.  While the store is failing no request changes it.  The listing
    catches the error and answers 503 with the store's message; the
    handlers of DELETE latest and POST do not, so Express answers 500 for
    DELETE latest and for a POST that passes the guard, while a POST that
    fails the guard still gets its 400.  The component's requests without
    a body are answered the same. *)
Theorem store_down (now : Z) (db : Db) (e : string) :
  fault db = Some e ->
  (forall req : Request, fst (serve' now db req) = db) /\
  (forall body : json, serve' now db (DELETE_latest body) = (db, Reply 500 BErrorPage)) /\
  (forall body : json,
     serve' now db (POST_measurements body)
     = (db, if invalid_payload (prop "type" body) (prop "geojson" body)
                               (prop "value" body) (prop "unit" body)
            then Reply 400 (error_body "Invalid payload")
            else Reply 500 BErrorPage)) /\
  (forall body : json,
     snd (serve' now db (GET_measurements body))
     = Reply 503 (BJson (JObj [("error", JStr "Database unavailable"); ("details", JStr e)]))) /\
  serve' now db DELETE_last = (db, Reply 500 BErrorPage) /\
  serve' now db GET_list
  = (db, Reply 503 (BJson (JObj [("error", JStr "Database unavailable");
                                 ("details", JStr e)]))).
Proof.
  intros Hf. split; [|split; [|split; [|split; [|split]]]].
  - intros req.
    destruct (serve_store_effect Number_toString now db req) as [[r ->]|[->| ->]];
      [reflexivity| |].
    + destruct (post_cases Number_toString now db req) as [->|[[e' ->]|(db' & d & _ & C)]];
        try reflexivity.
      apply create_inv in C. destruct C as (_ & _ & C & _). congruence.
    + unfold delete_latest, findOne_sorted. now rewrite Hf.
  - intros body. rewrite serve_DELETE_latest_any. unfold delete_latest, findOne_sorted.
    now rewrite Hf.
  - intros body. rewrite serve_POST. unfold post_measurement.
    cbn [payload POST_measurements]. cbv zeta.
    change (req_body (POST_measurements body)) with body.
    destruct (invalid_payload _ _ _ _); [reflexivity|].
    unfold create. destruct (validate _ _ _ _ _); [|reflexivity].
    now rewrite Hf.
  - intros body. rewrite serve_GET. unfold get_measurements, find_sorted. now rewrite Hf.
  - rewrite (serve_DELETE_last now db (JObj [])), serve_DELETE_latest_any.
    unfold delete_latest, findOne_sorted. now rewrite Hf.
  - rewrite (serve_GET_list now db (JObj [])), serve_GET.
    unfold get_measurements, find_sorted. now rewrite Hf.
Qed.

(** The step of [run]. *)
Lemma run_cons (db : Db) (now : Z) (req : Request) (rest : list (Z * Request)) :
  run' db ((now, req) :: rest)
  = (fst (run' (fst (serve' now db req)) rest),
     snd (serve' now db req) :: snd (run' (fst (serve' now db req)) rest)).
Proof.
  simpl. destruct (serve Number_toString now db req) as [db1 r]. simpl.
  destruct (run Number_toString db1 rest) as [db2 rs]. reflexivity.
Qed.

(** One DELETE latest on a reachable, non-empty store. *)
Lemma delete_latest_step (now : Z) (db : Db) (body : json) :
  fault db = None -> collection db <> [] ->
  snd (serve' now db (DELETE_latest body)) = deleted_one /\
  fault (fst (serve' now db (DELETE_latest body))) = None /\
  S (List.length (collection (fst (serve' now db (DELETE_latest body)))))
  = List.length (collection db).
Proof.
  intros Hf Hne. rewrite serve_DELETE_latest, delete_latest_eq by exact Hf.
  destruct (sort_desc_nonempty (collection db) Hne) as [d Hd]. rewrite Hd. simpl.
  repeat split; [exact Hf|].
  apply remove_id_length. exists d. split; [|reflexivity].
  apply (sort_desc_head (collection db) d Hd).
Qed.

Lemma delete_n (now : Z) (body : json) (n : nat) :
  forall db : Db,
    fault db = None -> List.length (collection db) = n ->
    collection (fst (run' db (repeat (now, DELETE_latest body) n))) = [] /\
    fault (fst (run' db (repeat (now, DELETE_latest body) n))) = None /\
    snd (run' db (repeat (now, DELETE_latest body) n)) = repeat deleted_one n.
Proof.
  induction n as [|n IH]; intros db Hf Hn.
  - simpl. destruct (collection db); [auto | discriminate].
  - cbn [repeat]. rewrite run_cons. cbn [fst snd].
    destruct (delete_latest_step now db body Hf) as (Hr & Hf' & Hlen).
    { intros E. rewrite E in Hn. discriminate. }
    destruct (IH (fst (serve' now db (DELETE_latest body))) Hf') as (Hc & Hf2 & Hrs).
    { lia. }
    rewrite Hr, Hrs. auto.
Qed.

Lemma run_DELETE_last (now : Z) (body : json) (n : nat) :
  forall db : Db,
    run' db (repeat (now, DELETE_last) n) = run' db (repeat (now, DELETE_latest body) n).
Proof.
  induction n as [|n IH]; intros db; [reflexivity|].
  cbn [repeat]. rewrite !run_cons, (serve_DELETE_last now db body). now rewrite IH.
Qed.

(** X3.  On a reachable store with n records, n DELETE latest requests in
    a row are each answered deleted-count 1 and leave the store empty; the
    request after them is answered 404.  It is so with a JSON body and
    without a body. *)
Theorem delete_until_empty (now : Z) (body : json) (db : Db) :
  fault db = None ->
  collection (fst (run' db (repeat (now, DELETE_latest body) (List.length (collection db)))))
  = [] /\
  snd (run' db (repeat (now, DELETE_latest body) (List.length (collection db))))
  = repeat deleted_one (List.length (collection db)) /\
  snd (serve' now (fst (run' db (repeat (now, DELETE_latest body)
                                        (List.length (collection db)))))
              (DELETE_latest body))
  = Reply 404 (error_body "No measurements to delete") /\
  run' db (repeat (now, DELETE_last) (List.length (collection db)))
  = run' db (repeat (now, DELETE_latest body) (List.length (collection db))) /\
  serve' now (fst (run' db (repeat (now, DELETE_latest body)
                                   (List.length (collection db)))))
         DELETE_last
  = serve' now (fst (run' db (repeat (now, DELETE_latest body)
                                     (List.length (collection db)))))
           (DELETE_latest body).
Proof.
  intros Hf.
  destruct (delete_n now body (List.length (collection db)) db Hf eq_refl) as (Hc & Hf' & Hrs).
  split; [exact Hc|]. split; [exact Hrs|]. split; [|split].
  - rewrite serve_DELETE_latest, delete_latest_eq by exact Hf'. now rewrite Hc.
  - apply run_DELETE_last.
  - apply serve_DELETE_last.
Qed.

(** X4.  A create that is newer than every stored record, followed by
    DELETE latest (with a JSON body or without a body), gives the
    collection back: the delete removes the record just created and no
    other. *)
Theorem post_then_delete_restores
        (now later : Z) (db db1 : Db) (body body' : json) (d : Doc) :
  wf_db db -> all_older now db ->
  serve' now db (POST_measurements body) = (db1, Reply 201 (BDoc d)) ->
  exists db2 : Db,
    serve' later db1 (DELETE_latest body') = (db2, deleted_one) /\
    collection db2 = collection db /\
    serve' later db1 DELETE_last = (db2, deleted_one).
Proof.
  intros [_ Hids] Hold HP.
  apply post_201_inv in HP. destruct HP as (-> & Hid & Ht & _).
  rewrite (serve_DELETE_last later _ body').
  rewrite serve_DELETE_latest, delete_latest_eq by reflexivity. simpl collection.
  rewrite sort_desc_newest by (rewrite Ht; exact Hold). simpl.
  eexists. split; [reflexivity|]. simpl. split; [|reflexivity].
  apply remove_id_appended. now rewrite Hid.
Qed.

(** X5.  A record that has been created is in the next listing (asked
    for with a JSON body or without a body), which is one longer than the
    collection was; when the record is newer than every stored one, the
    listing is that record followed by the listing as it was before the
    create. *)
Theorem created_is_listed
        (now t0 later : Z) (db db1 : Db) (body body0 body' : json) (d : Doc) :
  serve' now db (POST_measurements body) = (db1, Reply 201 (BDoc d)) ->
  exists items : list Doc,
    serve' later db1 (GET_measurements body') = (db1, Reply 200 (BDocs items)) /\
    In d items /\
    List.length items = S (List.length (collection db)) /\
    (all_older now db ->
     forall items0 : list Doc,
       snd (serve' t0 db (GET_measurements body0)) = Reply 200 (BDocs items0) ->
       items = d :: items0) /\
    serve' later db1 GET_list = (db1, Reply 200 (BDocs items)).
Proof.
  intros HP.
  assert (fault db = None) as Hf.
  { rewrite serve_POST in HP.
    destruct (post_cases Number_toString now db (POST_measurements body))
      as [E|[[e E]|(db' & d' & E & C)]]; rewrite E in HP; try discriminate.
    apply create_inv in C. destruct C as (_ & _ & C & _). exact C. }
  apply post_201_inv in HP. destruct HP as (-> & Hid & Ht & _).
  exists (sort_desc (collection db ++ [d])).
  rewrite (serve_GET_list later _ body'), serve_GET.
  unfold get_measurements, find_sorted. simpl.
  split; [reflexivity|]. split; [|split; [|split; [|reflexivity]]].
  - apply (Permutation_in _ (Permutation_sym (sort_desc_perm _))).
    apply in_or_app. right. now left.
  - rewrite (Permutation_length (sort_desc_perm _)), length_app. simpl. lia.
  - intros Hold items0 H0.
    rewrite serve_GET in H0. unfold get_measurements, find_sorted in H0.
    rewrite Hf in H0. simpl in H0. injection H0 as <-.
    apply sort_desc_newest. rewrite Ht. exact Hold.
Qed.

(** X6.  After any sequence of POST /api/measurements requests the
    collection has grown by the number of 201 answers, and on a reachable
    store the listing returns exactly that many records, newest first. *)
Theorem creates_counted (posts : list (Z * json)) :
  forall db : Db,
    List.length (collection (fst (run' db (map (fun p => (fst p, POST_measurements (snd p)))
                                               posts))))
    = (List.length (collection db) +
       List.length (filter is_created
                      (snd (run' db (map (fun p => (fst p, POST_measurements (snd p)))
                                         posts)))))%nat /\
    (fault db = None ->
     forall (now : Z) (body : json),
     exists items : list Doc,
       snd (serve' now (fst (run' db (map (fun p => (fst p, POST_measurements (snd p)))
                                          posts)))
                   (GET_measurements body))
       = Reply 200 (BDocs items) /\
       List.length items
       = (List.length (collection db) +
          List.length (filter is_created
                         (snd (run' db (map (fun p => (fst p, POST_measurements (snd p)))
                                            posts)))))%nat /\
       StronglySorted newer_first items).
Proof.
  induction posts as [|[t b] rest IH]; intros db.
  - simpl. split; [lia|]. intros Hf now body.
    exists (sort_desc (collection db)).
    rewrite serve_GET. unfold get_measurements, find_sorted. rewrite Hf. simpl.
    split; [reflexivity|]. split; [|apply sort_desc_sorted].
    rewrite (Permutation_length (sort_desc_perm _)). lia.
  - cbn [map fst snd]. rewrite run_cons. cbn [fst snd filter].
    destruct (IH (fst (serve' t db (POST_measurements b)))) as [Hlen Hget].
    pose proof (records_immutable t db (POST_measurements b)) as [Hfault Hcases].
    assert (List.length (collection (fst (serve' t db (POST_measurements b))))
            = (List.length (collection db) +
               (if is_created (snd (serve' t db (POST_measurements b))) then 1 else 0))%nat)
      as Hstep.
    { rewrite serve_POST in *.
      destruct (post_cases Number_toString t db (POST_measurements b))
        as [->|[[e ->]|(db' & d & -> & C)]]; simpl; try lia.
      apply create_inv in C. destruct C as (f & _ & _ & _ & ->). simpl.
      rewrite length_app. simpl. lia. }
    split.
    + rewrite Hlen, Hstep.
      destruct (is_created (snd (serve' t db (POST_measurements b)))); simpl; lia.
    + intros Hf now body. rewrite <- Hfault in Hf.
      destruct (Hget Hf now body) as (items & Hi & Hl & Hs).
      exists items. split; [exact Hi|]. split; [|exact Hs].
      rewrite Hl, Hstep.
      destruct (is_created (snd (serve' t db (POST_measurements b)))); simpl; lia.
Qed.

(** X7.  The JSON parser stands before every route but the health check:
    a request whose body it refuses, other than an OPTIONS request or a GET
    or HEAD of /api/health, is answered 400 by the parser and never reaches
    a handler or the store. *)
Theorem malformed_body_400 (now : Z) (db : Db) (m : Method) (p : string) :
  m <> OPTIONS ->
  method_matches GET m && path_matches "/api/health" p = false ->
  serve' now db (mkRequest m p Malformed) = (db, Reply 400 BErrorPage).
Proof.
  intros Hm Hh. unfold serve, app. cbn [dispatch]. unfold route at 1.
  cbn [method path]. rewrite Hh. unfold cors, express_json. cbn [method payload].
  destruct m; try reflexivity. contradiction.
Qed.

End ServerSessions.

(** ** The component and the server *)

Section ComponentProperties.

Variable Number_toString : number -> string.
Variable transformCoord : Projection -> Projection -> coord -> coord.
Variable getLength : Geometry -> Projection -> number.
Variable getArea : Geometry -> Projection -> number.

Local Abbreviation serve' := (serve Number_toString).
Local Abbreviation to_measurement' := (to_measurement transformCoord getLength getArea).
Local Abbreviation finishDrawing' := (finishDrawing transformCoord getLength getArea).
Local Abbreviation payloads' := (build_payloads transformCoord getLength getArea).
Local Abbreviation load_item' := (load_item transformCoord).
Local Abbreviation to4326 := (transformCoord EPSG3857 EPSG4326).
Local Abbreviation to3857 := (transformCoord EPSG4326 EPSG3857).

(** *** Coordinates through JSON *)

Lemma json_coord_encoded (c : coord) : json_coord (coord_json c) = Some c.
Proof.
  unfold coord_json, json_coord. induction c as [|x r IH]; simpl; [reflexivity|].
  now rewrite IH.
Qed.

Lemma json_coords_encoded (cs : list coord) : json_coords (coords_json cs) = Some cs.
Proof.
  unfold coords_json, json_coords. induction cs as [|c r IH]; cbn [map option_all];
    [reflexivity|].
  now rewrite json_coord_encoded, IH.
Qed.

Lemma same_dimension_map (f : coord -> coord) (c : coord) (cs : list coord) :
  (forall x, List.length (f x) = List.length x) ->
  same_dimension (f c) (map f cs) = same_dimension c cs.
Proof.
  intros Hf. unfold same_dimension. induction cs as [|x r IH]; simpl; [reflexivity|].
  rewrite IH. now rewrite !Hf.
Qed.

Lemma uniform_coords_map (f : coord -> coord) (cs : list coord) :
  (forall x, List.length (f x) = List.length x) ->
  uniform_coords (map f cs) = uniform_coords cs.
Proof.
  intros Hf. destruct cs as [|c r]; [reflexivity|].
  unfold uniform_coords. cbn [map]. rewrite Hf.
  now rewrite <- (same_dimension_map f c (c :: r) Hf).
Qed.

Lemma uniform_rings_single (cs : list coord) : uniform_rings [cs] = uniform_coords cs.
Proof.
  destruct cs as [|c r]; [reflexivity|].
  unfold uniform_rings, uniform_coords. cbn [forallb List.length Nat.eqb negb].
  now rewrite andb_true_r.
Qed.

(** What [load_item] makes of the geojson the client builds for a line and
    for a polygon. *)
Lemma load_item_line (d : Doc) (cs : list coord) :
  geojson d = feature_json "LineString" (coords_json cs) ->
  uniform_coords cs = true ->
  load_item' d = Added (LineString (map to3857 cs)).
Proof.
  intros Hg Hu. unfold load_item. rewrite Hg.
  destruct cs as [|c r]; [discriminate|].
  cbn -[json_coords uniform_coords coord_json].
  assert (first_is_number (coord_json c) = Some true) as ->.
  { destruct c as [|x c']; [discriminate | reflexivity]. }
  change (JArr (coord_json c :: map coord_json r)) with (coords_json (c :: r)).
  rewrite json_coords_encoded, Hu. reflexivity.
Qed.

Lemma load_item_polygon (d : Doc) (outer : list coord) :
  geojson d = feature_json "Polygon" (JArr [coords_json outer]) ->
  uniform_coords outer = true ->
  load_item' d = Added (Polygon [map to3857 outer]).
Proof.
  intros Hg Hu. unfold load_item. rewrite Hg.
  cbn -[json_coords uniform_rings coords_json].
  rewrite json_coords_encoded. cbn -[uniform_rings].
  rewrite uniform_rings_single, Hu. reflexivity.
Qed.

(** X9.  A drawn line comes back: the measurement the client builds for a
    line feature is stored by the server, and loading the store afterwards
    adds one feature whose geometry is the line's coordinates taken to
    EPSG:4326 and back to EPSG:3857, and reports one measurement.  When the
    two transforms are inverse to each other, that is the drawn line. *)
Theorem drawn_line_reloads
        (now later : Z) (n uid : nat) (f : Feature) (cs : list coord) (a : App) :
  getGeometry f = Some (LineString cs) ->
  uniform_coords cs = true ->
  (forall (s d : Projection) (c : coord),
     List.length (transformCoord s d c) = List.length c) ->
  exists (m : Measurement) (d : Doc),
    to_measurement' f = Some m /\
    serve' now (mkDb None [] n) (POST_measurements (measurement_json m))
    = (mkDb None [d] (S n), Reply 201 (BDoc d)) /\
    loadMeasurements Number_toString transformCoord later (mkDb None [d] (S n)) uid a
    = Some (mkApp (savedSource a ++
                   [mkFeature uid (Some (LineString (map to3857 (map to4326 cs))))])
                  (pendingSource a) "1 measurement(s) in database.") /\
    ((forall c, to3857 (to4326 c) = c) -> map to3857 (map to4326 cs) = cs).
Proof.
  intros Hgeo Hu Hlen.
  assert (to_measurement' f
          = Some (mkMeasurement "LineString"
                    (feature_json "LineString" (coords_json (map to4326 cs)))
                    (getLength (LineString (map to4326 cs)) EPSG4326) "m")) as Hm
      by (unfold to_measurement; rewrite Hgeo; reflexivity).
  eexists. eexists. split; [exact Hm|]. split; [|split].
  - apply (client_measurement_created Number_toString transformCoord getLength getArea
             now (mkDb None [] n) f _ Hm). reflexivity.
  - unfold loadMeasurements.
    rewrite (serve_GET_list Number_toString _ _ body_empty_object), serve_GET.
    cbn -[load_item nat_string].
    unfold loadMeasurements_next. cbn -[load_item nat_string].
    rewrite (load_item_line _ (map to4326 cs)); [reflexivity | reflexivity |].
    rewrite uniform_coords_map; [exact Hu | apply Hlen].
  - intros Hinv. rewrite map_map. rewrite <- (map_id cs) at 2.
    apply map_ext. exact Hinv.
Qed.

(** X10.  A drawn polygon comes back without its holes: the client stores
    the outer ring only, so loading the store afterwards adds a polygon of
    one ring, the outer ring taken to EPSG:4326 and back, whatever holes
    the drawn polygon had. *)
Theorem drawn_polygon_reloads_outer_ring
        (now later : Z) (n uid : nat) (f : Feature)
        (outer : list coord) (holes : list (list coord)) (a : App) :
  getGeometry f = Some (Polygon (outer :: holes)) ->
  uniform_coords outer = true ->
  (forall (s d : Projection) (c : coord),
     List.length (transformCoord s d c) = List.length c) ->
  exists (m : Measurement) (d : Doc),
    to_measurement' f = Some m /\
    serve' now (mkDb None [] n) (POST_measurements (measurement_json m))
    = (mkDb None [d] (S n), Reply 201 (BDoc d)) /\
    loadMeasurements Number_toString transformCoord later (mkDb None [d] (S n)) uid a
    = Some (mkApp (savedSource a ++
                   [mkFeature uid (Some (Polygon [map to3857 (map to4326 outer)]))])
                  (pendingSource a) "1 measurement(s) in database.").
Proof.
  intros Hgeo Hu Hlen.
  assert (to_measurement' f
          = Some (mkMeasurement "Polygon"
                    (feature_json "Polygon" (JArr [coords_json (map to4326 outer)]))
                    (getArea (Polygon (map (map to4326) (outer :: holes))) EPSG4326) "m²"))
    as Hm by (unfold to_measurement; rewrite Hgeo; reflexivity).
  eexists. eexists. split; [exact Hm|]. split.
  - apply (client_measurement_created Number_toString transformCoord getLength getArea
             now (mkDb None [] n) f _ Hm). reflexivity.
  - unfold loadMeasurements.
    rewrite (serve_GET_list Number_toString _ _ body_empty_object), serve_GET.
    cbn -[load_item nat_string].
    unfold loadMeasurements_next. cbn -[load_item nat_string].
    rewrite (load_item_polygon _ (map to4326 outer)); [reflexivity | reflexivity |].
    rewrite uniform_coords_map; [exact Hu | apply Hlen].
Qed.

(** X11.  Loading counts records, not features: records whose geojson has
    no [geometry] add nothing to the saved source, and the status line
    still reports all of them. *)
Theorem records_without_geometry_are_counted (items : list Doc) (uid : nat) (a : App) :
  items <> [] ->
  Forall (fun d => prop "geometry" (geojson d) = None) items ->
  loadMeasurements_next transformCoord items uid a
  = Some (mkApp (savedSource a) (pendingSource a)
                (nat_string (List.length items) ++ " measurement(s) in database.")).
Proof.
  intros Hne Hall. unfold loadMeasurements_next.
  assert (load_items transformCoord items uid (savedSource a) = Some (savedSource a)) as ->.
  { clear Hne. induction Hall as [|d r Hd _ IH]; [reflexivity|].
    cbn [load_items].
    assert (load_item' d = Skipped) as ->; [|exact IH].
    unfold load_item. destruct (geojson d); try reflexivity; now rewrite Hd. }
  destruct items; [contradiction | reflexivity].
Qed.

(** X12.  The component's "clear database" cannot clear anything on this
    server: a confirmed [clearDatabase] sends DELETE /api/measurements, the
    server answers 404 and keeps its store, and the component shows the
    failure message and keeps its saved features; a declined one does
    nothing. *)
Theorem clearDatabase_never_clears (confirmed : bool) (now : Z) (db : Db) (a : App) :
  clearDatabase Number_toString confirmed now db a
  = Some (db, if confirmed then mkApp (savedSource a) (pendingSource a) msg_clear_failed
              else a).
Proof. destruct confirmed; reflexivity. Qed.

(** X13.  On a reachable store [downloadData] hands over a file with every
    record of the store, newest first, named after the first ten characters
    of the ISO date; it does so for an empty store too, while the status
    line says there is nothing to download.  On a failing store there is no
    file. *)
Theorem download_has_every_record (iso : string) (now : Z) (db : Db) (a : App) :
  (fault db = None ->
   exists items : list Doc,
     downloadData Number_toString iso now db a
     = Some (mkApp (savedSource a) (pendingSource a)
                   (if Nat.eqb (List.length (collection db)) 0
                    then "No data to download. Draw and click Finish first."
                    else "Downloaded " ++ nat_string (List.length (collection db))
                                       ++ " measurement(s)."),
             Some (mkDownload ("measurements_" ++ substring 0 10 iso ++ ".json") items)) /\
     Permutation items (collection db) /\ StronglySorted newer_first items) /\
  (forall e : string,
     fault db = Some e ->
     downloadData Number_toString iso now db a
     = Some (mkApp (savedSource a) (pendingSource a) "Download failed. Is the server running?",
             None)).
Proof.
  split.
  - intros Hf. exists (sort_desc (collection db)).
    split; [|split; [apply sort_desc_perm | apply sort_desc_sorted]].
    unfold downloadData. rewrite (serve_GET_list Number_toString _ _ body_empty_object), serve_GET.
    unfold get_measurements, find_sorted.
    rewrite Hf. cbn -[nat_string substring].
    now rewrite (Permutation_length (sort_desc_perm (collection db))).
  - intros e Hf. unfold downloadData.
    rewrite (serve_GET_list Number_toString _ _ body_empty_object), serve_GET.
    unfold get_measurements, find_sorted. rewrite Hf. reflexivity.
Qed.

End ComponentProperties.

(** ** Batches of any size *)

Section BatchProperties.

Variable transformCoord : Projection -> Projection -> coord -> coord.
Variable getLength : Geometry -> Projection -> number.
Variable getArea : Geometry -> Projection -> number.

Local Abbreviation to_measurement' := (to_measurement transformCoord getLength getArea).
Local Abbreviation finishDrawing' := (finishDrawing transformCoord getLength getArea).
Local Abbreviation payloads' := (build_payloads transformCoord getLength getArea).

(** The state after the synchronous part, for a batch that is sent. *)
Lemma finishDrawing_sent (a : App) (outcomes : list Outcome) (arrival : list nat) :
  payloads' (pendingSource a) <> [] ->
  finishDrawing' a outcomes arrival
  = fst (fold_left callback (map (fun i => nth i outcomes Next) arrival)
           (a, mkBatch (pendingSource a) (List.length (payloads' (pendingSource a))) 0 false)).
Proof.
  intros Hne. unfold finishDrawing, finishDrawing_begin.
  destruct (pendingSource a) as [|f fs] eqn:Hp; [now contradiction Hne|].
  cbn [List.length Nat.eqb].
  destruct (payloads' (f :: fs)) as [|m ms] eqn:Hb; [now contradiction Hne|].
  reflexivity.
Qed.

(** [k] successes in a row that complete the batch promote everything. *)
Lemma all_next_promotes (k : nat) :
  forall (a : App) (b : Batch),
    failed b = false -> (done b + S k = total b)%nat ->
    fst (fold_left callback (repeat Next (S k)) (a, b))
    = mkApp (savedSource a ++ features b) [] msg_saved.
Proof.
  induction k as [|k IH]; intros a b Hf Hd.
  - cbn [repeat fold_left callback]. unfold on_next. rewrite Hf.
    assert (Nat.eqb (S (done b)) (total b) = true) as -> by (apply Nat.eqb_eq; lia).
    reflexivity.
  - cbn [repeat fold_left callback].
    assert (on_next (a, b) = (a, mkBatch (features b) (total b) (S (done b)) (failed b))) as ->.
    { unfold on_next.
      assert (Nat.eqb (S (done b)) (total b) = false) as -> by (apply Nat.eqb_neq; lia).
      now rewrite andb_false_r. }
    exact (IH a (mkBatch (features b) (total b) (S (done b)) (failed b)) Hf
              ltac:(simpl; lia)).
Qed.

Lemma map_all_next (outcomes : list Outcome) (arrival : list nat) :
  (forall i, In i arrival -> nth i outcomes Next = Next) ->
  map (fun i => nth i outcomes Next) arrival = repeat Next (List.length arrival).
Proof.
  induction arrival as [|i r IH]; intros H; [reflexivity|].
  simpl. rewrite H by now left. f_equal. apply IH. intros j Hj. apply H. now right.
Qed.

Lemma count_next_repeat (k : nat) : count_next (repeat Next k) = k.
Proof. induction k; simpl; congruence. Qed.

Lemma count_next_le (os : list Outcome) : (count_next os <= List.length os)%nat.
Proof. induction os as [|[] r IH]; simpl; lia. Qed.

Lemma count_next_error (os : list Outcome) :
  In Error os -> (count_next os < List.length os)%nat.
Proof.
  induction os as [|o r IH]; simpl; [tauto|].
  pose proof (count_next_le r) as Hle.
  intros [->|Hin]; [lia|]. specialize (IH Hin). destruct o; lia.
Qed.

Lemma map_nth_seq (os : list Outcome) :
  map (fun i => nth i os Next) (seq 0 (List.length os)) = os.
Proof.
  induction os as [|o r IH]; [reflexivity|].
  cbn [List.length seq map nth]. f_equal.
  rewrite <- seq_shift, map_map. exact IH.
Qed.

(** X14.  When every call of a batch succeeds, in whatever order the calls
    complete, all pending features move to the saved source (also those for
    which nothing was posted: features without geometry or of another
    kind), the pending source is emptied and the status line says saved. *)
Theorem batch_all_succeed_promotes_all
        (a : App) (outcomes : list Outcome) (arrival : list nat) :
  payloads' (pendingSource a) <> [] ->
  List.length arrival = List.length (payloads' (pendingSource a)) ->
  (forall i, In i arrival -> nth i outcomes Next = Next) ->
  finishDrawing' a outcomes arrival
  = mkApp (savedSource a ++ pendingSource a) [] msg_saved.
Proof.
  intros Hne Hlen Hall. rewrite (finishDrawing_sent a outcomes arrival Hne).
  rewrite (map_all_next outcomes arrival Hall), Hlen.
  destruct (payloads' (pendingSource a)) as [|m ms]; [now contradiction Hne|].
  cbn [List.length]. now rewrite all_next_promotes.
Qed.

(** X15.  A batch of any size in which at least one call fails, in
    whatever order the calls complete, promotes nothing: the saved and the
    pending source are as before, and the status line is the failure
    message. *)
Theorem batch_any_failure_promotes_nothing
        (a : App) (outcomes : list Outcome) (arrival : list nat) :
  List.length outcomes = List.length (payloads' (pendingSource a)) ->
  Permutation arrival (seq 0 (List.length outcomes)) ->
  In Error outcomes ->
  lastInfo (finishDrawing' a outcomes arrival) = msg_failed /\
  savedSource (finishDrawing' a outcomes arrival) = savedSource a /\
  pendingSource (finishDrawing' a outcomes arrival) = pendingSource a.
Proof.
  intros Hlen Hperm Herr.
  assert (payloads' (pendingSource a) <> []) as Hne.
  { intros E. rewrite E in Hlen. destruct outcomes; [contradiction | discriminate]. }
  rewrite (finishDrawing_sent a outcomes arrival Hne).
  set (os := map (fun i => nth i outcomes Next) arrival).
  assert (Permutation os outcomes) as Hos.
  { apply (Permutation_map (fun i => nth i outcomes Next)) in Hperm.
    now rewrite map_nth_seq in Hperm. }
  destruct (batch_with_failure os a
              (mkBatch (pendingSource a) (List.length (payloads' (pendingSource a))) 0 false))
    as (Hs & Hp & Hl).
  { right. simpl. rewrite (count_next_perm _ _ Hos), <- Hlen.
    now apply count_next_error. }
  repeat split; [|exact Hs|exact Hp].
  apply Hl. right. now apply (Permutation_in _ (Permutation_sym Hos)).
Qed.

(** X16.  While a call of the batch is still outstanding and none has
    failed, the component is exactly as it was when the batch was sent:
    nothing is promoted before the last answer. *)
Theorem batch_waits_for_last_answer
        (a : App) (outcomes : list Outcome) (arrival : list nat) :
  (List.length arrival < List.length (payloads' (pendingSource a)))%nat ->
  (forall i, In i arrival -> nth i outcomes Next = Next) ->
  finishDrawing' a outcomes arrival = a.
Proof.
  intros Hlt Hall.
  assert (payloads' (pendingSource a) <> []) as Hne
      by (intros E; rewrite E in Hlt; simpl in Hlt; lia).
  rewrite (finishDrawing_sent a outcomes arrival Hne), (map_all_next outcomes arrival Hall).
  set (b := mkBatch (pendingSource a) (List.length (payloads' (pendingSource a))) 0 false).
  assert (forall k (b : Batch),
             failed b = false -> (done b + k < total b)%nat ->
             fst (fold_left callback (repeat Next k) (a, b)) = a) as Hk.
  { induction k as [|k IH]; intros b0 Hf Hd; [reflexivity|].
    cbn [repeat fold_left callback].
    assert (on_next (a, b0)
            = (a, mkBatch (features b0) (total b0) (S (done b0)) (failed b0))) as ->.
    { unfold on_next.
      assert (Nat.eqb (S (done b0)) (total b0) = false) as -> by (apply Nat.eqb_neq; lia).
      now rewrite andb_false_r. }
    apply IH; simpl; [exact Hf | lia]. }
  apply Hk; [reflexivity | simpl; lia].
Qed.

Lemma payloads_none (fs : list Feature) :
  Forall (fun f => match getGeometry f with
                   | Some (LineString _) | Some (Polygon _) => False
                   | _ => True
                   end) fs ->
  payloads' fs = [].
Proof.
  induction 1 as [|f r Hf _ IH]; [reflexivity|].
  cbn [build_payloads].
  assert (to_measurement' f = None) as ->; [|exact IH].
  unfold to_measurement.
  destruct (getGeometry f) as [[cs|rs|k]|]; try contradiction;
    [destruct k; reflexivity | reflexivity].
Qed.

(** X17.  Nothing is posted and nothing moves when there is nothing to
    save: with no pending feature, and with pending features none of which
    is a line or a polygon, [finishDrawing] only sets the status line. *)
Theorem nothing_to_save (a : App) (outcomes : list Outcome) (arrival : list nat) :
  (pendingSource a = [] ->
   finishDrawing_begin transformCoord getLength getArea a
   = (mkApp (savedSource a) [] msg_nothing_drawn, [], None) /\
   finishDrawing' a outcomes arrival = mkApp (savedSource a) [] msg_nothing_drawn) /\
  (pendingSource a <> [] ->
   Forall (fun f => match getGeometry f with
                    | Some (LineString _) | Some (Polygon _) => False
                    | _ => True
                    end) (pendingSource a) ->
   finishDrawing_begin transformCoord getLength getArea a
   = (mkApp (savedSource a) (pendingSource a) msg_nothing, [], None) /\
   finishDrawing' a outcomes arrival = mkApp (savedSource a) (pendingSource a) msg_nothing).
Proof.
  split.
  - intros Hp. unfold finishDrawing, finishDrawing_begin. rewrite Hp. split; reflexivity.
  - intros Hne Hall.
    pose proof (payloads_none (pendingSource a) Hall) as Hb.
    unfold finishDrawing, finishDrawing_begin.
    destruct (pendingSource a) as [|f fs] eqn:Hp; [now contradiction Hne|].
    cbn [List.length Nat.eqb]. rewrite Hb. split; reflexivity.
Qed.

End BatchProperties.

(** ** The deployed component *)

Section DeployedProperties.

Variable Number_toString : number -> string.
Variable transformCoord : Projection -> Projection -> coord -> coord.
Variable getLength : Geometry -> Projection -> number.
Variable getArea : Geometry -> Projection -> number.

Local Abbreviation serve' := (serve Number_toString).
Local Abbreviation payloads' := (build_payloads transformCoord getLength getArea).

(** Loading adds at most one feature per record. *)
Lemma load_items_length (items : list Doc) :
  forall (uid : nat) (saved saved' : list Feature),
    load_items transformCoord items uid saved = Some saved' ->
    (List.length saved' <= List.length saved + List.length items)%nat.
Proof.
  induction items as [|m r IH]; intros uid saved saved' H; simpl in H.
  - injection H as <-. lia.
  - destruct (load_item transformCoord m); [| |discriminate].
    + apply IH in H. rewrite length_app in H. simpl in *. lia.
    + apply IH in H. simpl. lia.
Qed.

(** Records that all load give a saved source. *)
Lemma load_items_total (items : list Doc) :
  Forall (fun d => loads (load_item transformCoord d) = true) items ->
  forall (uid : nat) (saved : list Feature),
  exists saved' : list Feature, load_items transformCoord items uid saved = Some saved'.
Proof.
  induction 1 as [|m r Hm _ IH]; intros uid saved; simpl.
  - now exists saved.
  - destruct (load_item transformCoord m); [apply IH | apply IH | discriminate].
Qed.

(** X18.  Deleting the last measurement from the deployed component, on a
    reachable store.  With no record the server answers 404 and the
    component only says there is nothing to delete.  With records, all of
    which load (each is skipped or holds a well-formed line or polygon),
    the server removes one, and the reload that follows leaves the
    component with the message "Last measurement deleted.", a count equal
    to the number of records left, and at most that many saved features.
    A declined confirmation changes nothing. *)
Theorem delete_last_measurement_outcomes
        (now later : Z) (db : Db) (uid : nat) (a : Deployed.App) :
  fault db = None ->
  (collection db = [] ->
   Deployed.deleteLastMeasurement Number_toString transformCoord true now later db uid a
   = Some (db, Deployed.set_lastInfo a Deployed.msg_none_to_delete)) /\
  (collection db <> [] ->
   Forall (fun d => loads (load_item transformCoord d) = true) (collection db) ->
   exists (db' : Db) (a' : Deployed.App),
     Deployed.deleteLastMeasurement Number_toString transformCoord true now later db uid a
     = Some (db', a') /\
     S (List.length (collection db')) = List.length (collection db) /\
     Deployed.lastInfo a' = Deployed.msg_deleted /\
     Deployed.savedMeasurementsCount a' = List.length (collection db') /\
     Deployed.pendingSource a' = Deployed.pendingSource a /\
     (List.length (Deployed.savedSource a') <= List.length (collection db'))%nat) /\
  Deployed.deleteLastMeasurement Number_toString transformCoord false now later db uid a
  = Some (db, a).
Proof.
  intros Hf. split; [|split; [|reflexivity]].
  - intros Hc. unfold Deployed.deleteLastMeasurement. cbn [negb].
    rewrite (serve_DELETE_last Number_toString _ _ body_empty_object).
    rewrite serve_DELETE_latest, delete_latest_eq by exact Hf. rewrite Hc. reflexivity.
  - intros Hne Hall.
    destruct (sort_desc_nonempty (collection db) Hne) as [d Hd].
    destruct (sort_desc_head (collection db) d Hd) as [Hin _].
    set (coll' := remove_id (_id d) (collection db)).
    assert (serve' now db DELETE_last = (set_collection db coll', deleted_one)) as Hdel.
    { rewrite (serve_DELETE_last Number_toString _ _ body_empty_object).
      rewrite serve_DELETE_latest, delete_latest_eq by exact Hf. now rewrite Hd. }
    assert (Forall (fun x => loads (load_item transformCoord x) = true) (sort_desc coll'))
      as Hall'.
    { rewrite Forall_forall in *. intros x Hx. apply Hall.
      apply (Permutation_in _ (sort_desc_perm coll')) in Hx.
      exact (remove_id_incl _ _ _ Hx). }
    destruct (load_items_total _ Hall' uid []) as [saved Hs].
    pose proof (load_items_length _ _ _ _ Hs) as Hlen.
    pose proof (Permutation_length (sort_desc_perm coll')) as HP.
    exists (set_collection db coll').
    exists (Deployed.mkApp saved (Deployed.pendingSource a) Deployed.msg_deleted
              (Deployed.showInstructions a) (List.length (sort_desc coll'))
              (Deployed.countAtLastDownload a)).
    split.
    + unfold Deployed.deleteLastMeasurement. cbn [negb]. rewrite Hdel.
      cbn [snd fst http_event deleted_one Nat.leb Nat.ltb andb].
      change (Deployed.deleted_count_is_one (JObj [("deletedCount", JNum 1%Q)])) with true.
      cbv iota.
      unfold Deployed.loadMeasurements.
      rewrite (serve_GET_list Number_toString _ _ body_empty_object), serve_GET.
      unfold get_measurements, find_sorted. cbn [fault set_collection]. rewrite Hf.
      cbn [snd http_event collection Nat.leb Nat.ltb andb].
      unfold Deployed.loadMeasurements_next.
      cbn [Deployed.savedSource Deployed.pendingSource Deployed.showInstructions
           Deployed.countAtLastDownload Deployed.loadMeasurements_begin].
      change (collection (set_collection db coll')) with coll'.
      now rewrite Hs.
    + cbn [collection set_collection Deployed.lastInfo Deployed.savedMeasurementsCount
           Deployed.pendingSource Deployed.savedSource].
      repeat split; try assumption.
      * unfold coll'. apply remove_id_length. now exists d.
      * simpl in Hlen. lia.
Qed.

(** X19.  The deployed component refuses to download while its count of
    saved measurements is zero, without asking the server, whatever the
    store holds; in particular after [reset], which zeroes the count
    although it deletes nothing from the store. *)
Theorem download_refused_without_count (iso : string) (now : Z) (db : Db) (a : Deployed.App) :
  (Deployed.savedMeasurementsCount a = 0%nat ->
   Deployed.downloadData Number_toString iso now db a
   = Some (Deployed.set_lastInfo a Deployed.msg_download_refused, None)) /\
  Deployed.downloadData Number_toString iso now db (Deployed.reset a)
  = Some (Deployed.set_lastInfo (Deployed.reset a) Deployed.msg_download_refused, None).
Proof.
  split; [|reflexivity].
  intros H. unfold Deployed.downloadData, Deployed.canDownload. now rewrite H.
Qed.

Lemma deployed_all_next (k : nat) :
  forall (a : Deployed.App) (b : Batch),
    failed b = false -> (done b + S k = total b)%nat ->
    fst (fold_left Deployed.callback (repeat Next (S k)) (a, b))
    = Deployed.mkApp (Deployed.savedSource a ++ features b) [] msg_saved
                     (Deployed.showInstructions a)
                     (List.length (Deployed.savedSource a ++ features b))
                     (Deployed.countAtLastDownload a).
Proof.
  induction k as [|k IH]; intros a b Hf Hd.
  - cbn [repeat fold_left Deployed.callback]. unfold Deployed.on_next. rewrite Hf.
    assert (Nat.eqb (S (done b)) (total b) = true) as -> by (apply Nat.eqb_eq; lia).
    reflexivity.
  - cbn [repeat fold_left Deployed.callback].
    assert (Deployed.on_next (a, b)
            = (a, mkBatch (features b) (total b) (S (done b)) (failed b))) as ->.
    { unfold Deployed.on_next.
      assert (Nat.eqb (S (done b)) (total b) = false) as -> by (apply Nat.eqb_neq; lia).
      now rewrite andb_false_r. }
    exact (IH a (mkBatch (features b) (total b) (S (done b)) (failed b)) Hf
              ltac:(simpl; lia)).
Qed.

(** X20.  In the deployed component a batch whose calls all succeed sets
    the count of saved measurements to the number of saved features, all
    pending features included, so that the download is allowed from then
    on. *)
Theorem deployed_batch_enables_download
        (a : Deployed.App) (outcomes : list Outcome) (arrival : list nat) :
  payloads' (Deployed.pendingSource a) <> [] ->
  List.length arrival = List.length (payloads' (Deployed.pendingSource a)) ->
  (forall i, In i arrival -> nth i outcomes Next = Next) ->
  Deployed.finishDrawing transformCoord getLength getArea a outcomes arrival
  = Deployed.mkApp (Deployed.savedSource a ++ Deployed.pendingSource a) [] msg_saved
                   (Deployed.showInstructions a)
                   (List.length (Deployed.savedSource a ++ Deployed.pendingSource a))
                   (Deployed.countAtLastDownload a) /\
  Deployed.canDownload
    (Deployed.finishDrawing transformCoord getLength getArea a outcomes arrival) = true.
Proof.
  intros Hne Hlen Hall.
  assert (Deployed.finishDrawing transformCoord getLength getArea a outcomes arrival
          = Deployed.mkApp (Deployed.savedSource a ++ Deployed.pendingSource a) [] msg_saved
                           (Deployed.showInstructions a)
                           (List.length (Deployed.savedSource a ++ Deployed.pendingSource a))
                           (Deployed.countAtLastDownload a)) as E.
  { unfold Deployed.finishDrawing, Deployed.finishDrawing_begin.
    destruct (Deployed.pendingSource a) as [|f fs] eqn:Hp; [now contradiction Hne|].
    cbn [List.length Nat.eqb].
    destruct (payloads' (f :: fs)) as [|m ms] eqn:Hb; [now contradiction Hne|].
    cbn [List.length Nat.eqb].
    rewrite (map_all_next outcomes arrival Hall), Hlen. cbn [List.length].
    now rewrite deployed_all_next. }
  split; [exact E|]. rewrite E. unfold Deployed.canDownload. cbn [Deployed.savedMeasurementsCount].
  destruct (Deployed.pendingSource a) as [|f fs]; [now contradiction Hne|].
  rewrite length_app. simpl. apply Nat.ltb_lt. lia.
Qed.

End DeployedProperties.

(** ** Closed instances of the further properties *)

Lemma store_down_witness :
  (forall req : Request, fst (serve sample_toString 0 db_down req) = db_down) /\
  (forall body : json,
     serve sample_toString 0 db_down (DELETE_latest body) = (db_down, Reply 500 BErrorPage)) /\
  (forall body : json,
     serve sample_toString 0 db_down (POST_measurements body)
     = (db_down, if invalid_payload (prop "type" body) (prop "geojson" body)
                                    (prop "value" body) (prop "unit" body)
                 then Reply 400 (error_body "Invalid payload")
                 else Reply 500 BErrorPage)) /\
  (forall body : json,
     snd (serve sample_toString 0 db_down (GET_measurements body))
     = Reply 503 (BJson (JObj [("error", JStr "Database unavailable");
                               ("details", JStr "connection refused")]))) /\
  serve sample_toString 0 db_down DELETE_last = (db_down, Reply 500 BErrorPage) /\
  serve sample_toString 0 db_down GET_list
  = (db_down, Reply 503 (BJson (JObj [("error", JStr "Database unavailable");
                                      ("details", JStr "connection refused")]))).
Proof. exact (store_down sample_toString 0 db_down "connection refused" eq_refl). Defined.

Lemma delete_until_empty_witness :
  collection (fst (run sample_toString db_two (repeat (5, DELETE_latest body_empty_object) 2))) = [] /\
  snd (run sample_toString db_two (repeat (5, DELETE_latest body_empty_object) 2))
  = repeat deleted_one 2 /\
  snd (serve sample_toString 5
             (fst (run sample_toString db_two (repeat (5, DELETE_latest body_empty_object) 2)))
             (DELETE_latest body_empty_object))
  = Reply 404 (error_body "No measurements to delete") /\
  run sample_toString db_two (repeat (5, DELETE_last) 2)
  = run sample_toString db_two (repeat (5, DELETE_latest body_empty_object) 2) /\
  serve sample_toString 5
        (fst (run sample_toString db_two (repeat (5, DELETE_latest body_empty_object) 2))) DELETE_last
  = serve sample_toString 5
          (fst (run sample_toString db_two (repeat (5, DELETE_latest body_empty_object) 2)))
          (DELETE_latest body_empty_object).
Proof. exact (delete_until_empty sample_toString 5 body_empty_object db_two eq_refl). Defined.

Lemma post_then_delete_restores_witness :
  exists db2 : Db,
    serve sample_toString 1002 db_two (DELETE_latest body_empty_object) = (db2, deleted_one) /\
    collection db2 = [doc_line] /\
    serve sample_toString 1002 db_two DELETE_last = (db2, deleted_one).
Proof.
  apply (post_then_delete_restores sample_toString 1001 1002 (mkDb None [doc_line] 1) db_two
           body_polygon body_empty_object doc_polygon_later).
  - split; simpl; repeat constructor; simpl; tauto.
  - repeat constructor.
  - reflexivity.
Defined.

Lemma created_is_listed_witness :
  exists items : list Doc,
    serve sample_toString 1002 db_two (GET_measurements body_empty_object)
    = (db_two, Reply 200 (BDocs items)) /\
    In doc_polygon_later items /\
    items = [doc_polygon_later; doc_line] /\
    serve sample_toString 1002 db_two GET_list = (db_two, Reply 200 (BDocs items)).
Proof.
  destruct (created_is_listed sample_toString 1001 1000 1002 (mkDb None [doc_line] 1) db_two
              body_polygon body_empty_object body_empty_object doc_polygon_later eq_refl)
    as (items & Hs & Hin & _ & Hfirst & Hlist).
  exists items. split; [exact Hs|]. split; [exact Hin|]. split; [|exact Hlist].
  apply Hfirst; [repeat constructor | reflexivity].
Defined.

Lemma creates_counted_witness :
  List.length (collection (fst (run sample_toString db_empty
                                    [(1000, POST_measurements body_line);
                                     (1000, POST_measurements body_circle);
                                     (1001, POST_measurements body_polygon)]))) = 2%nat /\
  exists items : list Doc,
    snd (serve sample_toString 1002
               (fst (run sample_toString db_empty
                         [(1000, POST_measurements body_line);
                          (1000, POST_measurements body_circle);
                          (1001, POST_measurements body_polygon)]))
               (GET_measurements body_empty_object))
    = Reply 200 (BDocs items) /\
    List.length items = 2%nat /\ StronglySorted newer_first items.
Proof.
  pose proof (creates_counted sample_toString
                [(1000, body_line); (1000, body_circle); (1001, body_polygon)] db_empty)
    as [Hlen Hget].
  split; [exact Hlen | exact (Hget eq_refl 1002 body_empty_object)].
Defined.

Lemma malformed_body_400_witness :
  serve sample_toString 0 db_two (mkRequest POST "/api/measurements" Malformed)
  = (db_two, Reply 400 BErrorPage).
Proof. apply malformed_body_400; [discriminate | reflexivity]. Defined.

Lemma client_measurement_created_witness :
  serve sample_toString 1000 db_empty (POST_measurements (measurement_json sample_line_measurement))
  = (mkDb None [doc_line_posted] 1, Reply 201 (BDoc doc_line_posted)).
Proof.
  apply (client_measurement_created sample_toString sample_transformCoord sample_getLength
           sample_getArea 1000 db_empty (sample_line 1) sample_line_measurement);
    reflexivity.
Defined.

Lemma drawn_line_reloads_witness :
  exists (m : Measurement) (d : Doc),
    to_measurement sample_transformCoord sample_getLength sample_getArea (sample_line 1)
    = Some m /\
    serve sample_toString 1000 db_empty (POST_measurements (measurement_json m))
    = (mkDb None [d] 1, Reply 201 (BDoc d)) /\
    loadMeasurements sample_toString sample_transformCoord 1001 (mkDb None [d] 1) 4 app_fresh
    = Some (mkApp [sample_line 4] [] "1 measurement(s) in database.").
Proof.
  destruct (drawn_line_reloads sample_toString sample_transformCoord sample_getLength
              sample_getArea 1000 1001 0 4 (sample_line 1) [[0%Q; 0%Q]; [1%Q; 0%Q]] app_fresh
              eq_refl eq_refl (fun _ _ _ => eq_refl))
    as (m & d & Hm & Hs & Hl & Hinv).
  exists m, d. split; [exact Hm|]. split; [exact Hs|].
  rewrite Hl. rewrite (Hinv (fun _ => eq_refl)). reflexivity.
Defined.

Lemma drawn_polygon_reloads_outer_ring_witness :
  exists (m : Measurement) (d : Doc),
    to_measurement sample_transformCoord sample_getLength sample_getArea sample_holed_polygon
    = Some m /\
    serve sample_toString 1000 db_empty (POST_measurements (measurement_json m))
    = (mkDb None [d] 1, Reply 201 (BDoc d)) /\
    loadMeasurements sample_toString sample_transformCoord 1001 (mkDb None [d] 1) 4 app_fresh
    = Some (mkApp [mkFeature 4 (Some (Polygon [[[0%Q; 0%Q]; [4%Q; 0%Q]; [4%Q; 4%Q];
                                                [0%Q; 0%Q]]]))]
                  [] "1 measurement(s) in database.").
Proof.
  exact (drawn_polygon_reloads_outer_ring sample_toString sample_transformCoord
           sample_getLength sample_getArea 1000 1001 0 4 sample_holed_polygon
           [[0%Q; 0%Q]; [4%Q; 0%Q]; [4%Q; 4%Q]; [0%Q; 0%Q]]
           [[[1%Q; 1%Q]; [2%Q; 1%Q]; [2%Q; 2%Q]; [1%Q; 1%Q]]] app_fresh
           eq_refl eq_refl (fun _ _ _ => eq_refl)).
Defined.

Lemma records_without_geometry_are_counted_witness :
  loadMeasurements_next sample_transformCoord [doc_polygon; doc_polygon_later] 4 app_fresh
  = Some (mkApp [] [] "2 measurement(s) in database.").
Proof.
  apply (records_without_geometry_are_counted sample_transformCoord
           [doc_polygon; doc_polygon_later] 4 app_fresh);
    [discriminate | repeat constructor].
Defined.

Lemma download_has_every_record_witness :
  (exists items : list Doc,
     downloadData sample_toString sample_iso 1002 db_two app_fresh
     = Some (mkApp [] [] "Downloaded 2 measurement(s).",
             Some (mkDownload "measurements_2026-02-03.json" items)) /\
     Permutation items (collection db_two) /\ StronglySorted newer_first items) /\
  downloadData sample_toString sample_iso 1002 db_down app_fresh
  = Some (mkApp [] [] "Download failed. Is the server running?", None).
Proof.
  split.
  - exact (proj1 (download_has_every_record sample_toString sample_iso 1002 db_two app_fresh)
             eq_refl).
  - exact (proj2 (download_has_every_record sample_toString sample_iso 1002 db_down app_fresh)
             "connection refused" eq_refl).
Defined.

Lemma batch_all_succeed_promotes_all_witness :
  finishDrawing sample_transformCoord sample_getLength sample_getArea
    app_three_pending [Next; Next; Next] [1; 2; 0]%nat
  = mkApp (savedSource app_three_pending ++ pendingSource app_three_pending) [] msg_saved.
Proof.
  apply batch_all_succeed_promotes_all; [discriminate | reflexivity |].
  intros i [<-|[<-|[<-|[]]]]; reflexivity.
Defined.

Lemma batch_any_failure_promotes_nothing_witness :
  lastInfo (finishDrawing sample_transformCoord sample_getLength sample_getArea
              app_three_pending [Error; Next; Next] [1; 0; 2]%nat) = msg_failed /\
  savedSource (finishDrawing sample_transformCoord sample_getLength sample_getArea
                 app_three_pending [Error; Next; Next] [1; 0; 2]%nat)
  = savedSource app_three_pending /\
  pendingSource (finishDrawing sample_transformCoord sample_getLength sample_getArea
                   app_three_pending [Error; Next; Next] [1; 0; 2]%nat)
  = pendingSource app_three_pending.
Proof.
  apply batch_any_failure_promotes_nothing; [reflexivity | apply perm_swap | now left].
Defined.

Lemma batch_waits_for_last_answer_witness :
  finishDrawing sample_transformCoord sample_getLength sample_getArea
    app_three_pending [Next; Next; Error] [1; 0]%nat
  = app_three_pending.
Proof.
  apply batch_waits_for_last_answer; [simpl; lia|].
  intros i [<-|[<-|[]]]; reflexivity.
Defined.

Lemma nothing_to_save_witness :
  finishDrawing sample_transformCoord sample_getLength sample_getArea app_fresh [] []
  = mkApp [] [] msg_nothing_drawn /\
  finishDrawing sample_transformCoord sample_getLength sample_getArea app_unmeasurable [] []
  = mkApp [] (pendingSource app_unmeasurable) msg_nothing.
Proof.
  split.
  - exact (proj2 (proj1 (nothing_to_save sample_transformCoord sample_getLength sample_getArea
                           app_fresh [] []) eq_refl)).
  - apply (proj2 (nothing_to_save sample_transformCoord sample_getLength sample_getArea
                    app_unmeasurable [] [])); [discriminate | repeat constructor].
Defined.

Lemma delete_last_measurement_outcomes_witness :
  Deployed.deleteLastMeasurement sample_toString sample_transformCoord true 1002 1003
    db_empty 4 deployed_loaded
  = Some (db_empty, Deployed.set_lastInfo deployed_loaded Deployed.msg_none_to_delete) /\
  exists (db' : Db) (a' : Deployed.App),
    Deployed.deleteLastMeasurement sample_toString sample_transformCoord true 1002 1003
      db_two 4 deployed_loaded
    = Some (db', a') /\
    S (List.length (collection db')) = List.length (collection db_two) /\
    Deployed.lastInfo a' = Deployed.msg_deleted /\
    Deployed.savedMeasurementsCount a' = List.length (collection db') /\
    Deployed.pendingSource a' = Deployed.pendingSource deployed_loaded /\
    (List.length (Deployed.savedSource a') <= List.length (collection db'))%nat.
Proof.
  split.
  - exact (proj1 (delete_last_measurement_outcomes sample_toString sample_transformCoord
                    1002 1003 db_empty 4 deployed_loaded eq_refl) eq_refl).
  - apply (proj1 (proj2 (delete_last_measurement_outcomes sample_toString
                           sample_transformCoord 1002 1003 db_two 4 deployed_loaded eq_refl)));
      [discriminate | repeat constructor].
Defined.

Lemma download_refused_without_count_witness :
  Deployed.downloadData sample_toString sample_iso 1002 db_two deployed_pending
  = Some (Deployed.set_lastInfo deployed_pending Deployed.msg_download_refused, None).
Proof.
  exact (proj1 (download_refused_without_count sample_toString sample_iso 1002 db_two
                  deployed_pending) eq_refl).
Defined.

Lemma deployed_batch_enables_download_witness :
  Deployed.finishDrawing sample_transformCoord sample_getLength sample_getArea
    deployed_pending [Next; Next] [1; 0]%nat
  = Deployed.mkApp [sample_line 1; sample_polygon 2] [] msg_saved false 2 0 /\
  Deployed.canDownload
    (Deployed.finishDrawing sample_transformCoord sample_getLength sample_getArea
       deployed_pending [Next; Next] [1; 0]%nat) = true.
Proof.
  apply deployed_batch_enables_download; [discriminate | reflexivity |].
  intros i [<-|[<-|[]]]; reflexivity.
Defined.
